(** * Trains-Finder: the search page's script (script.js)

    A shallow embedding of the script behind the train search form, and the
    properties of its duration calculator, time formatter, submit handler,
    search function and result renderer.

    Conventions of the embedding.

    - Text is a [string] of bytes, read as UTF-8.  The markup templates are
      copied byte for byte from script.js.  [trim] strips the white space
      and line terminators of ECMAScript, and [toUpperCase] applies the
      full upper-case mapping of the Unicode character database, both on
      the UTF-8 bytes.
    - The numbers the script computes with are integers: a JavaScript number
      is an IEEE double, and on integers below 2^53 its sum, product and
      remainder are exact.  [Number] only accepts short digit strings, so
      that every value derived from them stays far below that bound; on any
      other string it answers [None], which stands for "outside the modelled
      numbers" (NaN, fractions, exponents, signs, padded text), never for a
      JavaScript failure.
    - A parsed response body is JSON [null] or a sequence of [TripResult]
      records whose fields are all strings, as the API delivers them.
    - The page is a record [World]; a function that touches the page is a
      computation [M A], which takes a world and gives back a completion
      (a value or a thrown [Error]) and the next world.  Next to the state
      of the elements the world keeps a [trace]: every [style.display]
      assignment and every call to [fetch], [console.error],
      [scrollIntoView], [setTimeout] and [preventDefault], in order. *)

From Stdlib Require Import ZArith String Ascii List Lia Bool DecimalString.
Import ListNotations.

Open Scope string_scope.
Open Scope Z_scope.

(** ** Unicode data *)

Module Unicode.

(** The characters whose upper-case form is not the character itself,
    outside ASCII, each with its full upper-case mapping (one to three
    characters), both in UTF-8.  The mappings are those of UnicodeData.txt
    and the unconditional ones of SpecialCasing.txt, Unicode 14.0. *)
Definition upper_table : list (string * string) := [
  ("µ", "Μ"); ("ß", "SS"); ("à", "À"); ("á", "Á"); ("â", "Â"); ("ã", "Ã");
  ("ä", "Ä"); ("å", "Å"); ("æ", "Æ"); ("ç", "Ç"); ("è", "È"); ("é", "É");
  ("ê", "Ê"); ("ë", "Ë"); ("ì", "Ì"); ("í", "Í"); ("î", "Î"); ("ï", "Ï");
  ("ð", "Ð"); ("ñ", "Ñ"); ("ò", "Ò"); ("ó", "Ó"); ("ô", "Ô"); ("õ", "Õ");
  ("ö", "Ö"); ("ø", "Ø"); ("ù", "Ù"); ("ú", "Ú"); ("û", "Û"); ("ü", "Ü");
  ("ý", "Ý"); ("þ", "Þ"); ("ÿ", "Ÿ"); ("ā", "Ā"); ("ă", "Ă"); ("ą", "Ą");
  ("ć", "Ć"); ("ĉ", "Ĉ"); ("ċ", "Ċ"); ("č", "Č"); ("ď", "Ď"); ("đ", "Đ");
  ("ē", "Ē"); ("ĕ", "Ĕ"); ("ė", "Ė"); ("ę", "Ę"); ("ě", "Ě"); ("ĝ", "Ĝ");
  ("ğ", "Ğ"); ("ġ", "Ġ"); ("ģ", "Ģ"); ("ĥ", "Ĥ"); ("ħ", "Ħ"); ("ĩ", "Ĩ");
  ("ī", "Ī"); ("ĭ", "Ĭ"); ("į", "Į"); ("ı", "I"); ("ĳ", "Ĳ"); ("ĵ", "Ĵ");
  ("ķ", "Ķ"); ("ĺ", "Ĺ"); ("ļ", "Ļ"); ("ľ", "Ľ"); ("ŀ", "Ŀ"); ("ł", "Ł");
  ("ń", "Ń"); ("ņ", "Ņ"); ("ň", "Ň"); ("ŉ", "ʼN"); ("ŋ", "Ŋ"); ("ō", "Ō");
  ("ŏ", "Ŏ"); ("ő", "Ő"); ("œ", "Œ"); ("ŕ", "Ŕ"); ("ŗ", "Ŗ"); ("ř", "Ř");
  ("ś", "Ś"); ("ŝ", "Ŝ"); ("ş", "Ş"); ("š", "Š"); ("ţ", "Ţ"); ("ť", "Ť");
  ("ŧ", "Ŧ"); ("ũ", "Ũ"); ("ū", "Ū"); ("ŭ", "Ŭ"); ("ů", "Ů"); ("ű", "Ű");
  ("ų", "Ų"); ("ŵ", "Ŵ"); ("ŷ", "Ŷ"); ("ź", "Ź"); ("ż", "Ż"); ("ž", "Ž");
  ("ſ", "S"); ("ƀ", "Ƀ"); ("ƃ", "Ƃ"); ("ƅ", "Ƅ"); ("ƈ", "Ƈ"); ("ƌ", "Ƌ");
  ("ƒ", "Ƒ"); ("ƕ", "Ƕ"); ("ƙ", "Ƙ"); ("ƚ", "Ƚ"); ("ƞ", "Ƞ"); ("ơ", "Ơ");
  ("ƣ", "Ƣ"); ("ƥ", "Ƥ"); ("ƨ", "Ƨ"); ("ƭ", "Ƭ"); ("ư", "Ư"); ("ƴ", "Ƴ");
  ("ƶ", "Ƶ"); ("ƹ", "Ƹ"); ("ƽ", "Ƽ"); ("ƿ", "Ƿ"); ("ǅ", "Ǆ"); ("ǆ", "Ǆ");
  ("ǈ", "Ǉ"); ("ǉ", "Ǉ"); ("ǋ", "Ǌ"); ("ǌ", "Ǌ"); ("ǎ", "Ǎ"); ("ǐ", "Ǐ");
  ("ǒ", "Ǒ"); ("ǔ", "Ǔ"); ("ǖ", "Ǖ"); ("ǘ", "Ǘ"); ("ǚ", "Ǚ"); ("ǜ", "Ǜ");
  ("ǝ", "Ǝ"); ("ǟ", "Ǟ"); ("ǡ", "Ǡ"); ("ǣ", "Ǣ"); ("ǥ", "Ǥ"); ("ǧ", "Ǧ");
  ("ǩ", "Ǩ"); ("ǫ", "Ǫ"); ("ǭ", "Ǭ"); ("ǯ", "Ǯ"); ("ǰ", "J̌"); ("ǲ", "Ǳ");
  ("ǳ", "Ǳ"); ("ǵ", "Ǵ"); ("ǹ", "Ǹ"); ("ǻ", "Ǻ"); ("ǽ", "Ǽ"); ("ǿ", "Ǿ");
  ("ȁ", "Ȁ"); ("ȃ", "Ȃ"); ("ȅ", "Ȅ"); ("ȇ", "Ȇ"); ("ȉ", "Ȉ"); ("ȋ", "Ȋ");
  ("ȍ", "Ȍ"); ("ȏ", "Ȏ"); ("ȑ", "Ȑ"); ("ȓ", "Ȓ"); ("ȕ", "Ȕ"); ("ȗ", "Ȗ");
  ("ș", "Ș"); ("ț", "Ț"); ("ȝ", "Ȝ"); ("ȟ", "Ȟ"); ("ȣ", "Ȣ"); ("ȥ", "Ȥ");
  ("ȧ", "Ȧ"); ("ȩ", "Ȩ"); ("ȫ", "Ȫ"); ("ȭ", "Ȭ"); ("ȯ", "Ȯ"); ("ȱ", "Ȱ");
  ("ȳ", "Ȳ"); ("ȼ", "Ȼ"); ("ȿ", "Ȿ"); ("ɀ", "Ɀ"); ("ɂ", "Ɂ"); ("ɇ", "Ɇ");
  ("ɉ", "Ɉ"); ("ɋ", "Ɋ"); ("ɍ", "Ɍ"); ("ɏ", "Ɏ"); ("ɐ", "Ɐ"); ("ɑ", "Ɑ");
  ("ɒ", "Ɒ"); ("ɓ", "Ɓ"); ("ɔ", "Ɔ"); ("ɖ", "Ɖ"); ("ɗ", "Ɗ"); ("ə", "Ə");
  ("ɛ", "Ɛ"); ("ɜ", "Ɜ"); ("ɠ", "Ɠ"); ("ɡ", "Ɡ"); ("ɣ", "Ɣ"); ("ɥ", "Ɥ");
  ("ɦ", "Ɦ"); ("ɨ", "Ɨ"); ("ɩ", "Ɩ"); ("ɪ", "Ɪ"); ("ɫ", "Ɫ"); ("ɬ", "Ɬ");
  ("ɯ", "Ɯ"); ("ɱ", "Ɱ"); ("ɲ", "Ɲ"); ("ɵ", "Ɵ"); ("ɽ", "Ɽ"); ("ʀ", "Ʀ");
  ("ʂ", "Ʂ"); ("ʃ", "Ʃ"); ("ʇ", "Ʇ"); ("ʈ", "Ʈ"); ("ʉ", "Ʉ"); ("ʊ", "Ʊ");
  ("ʋ", "Ʋ"); ("ʌ", "Ʌ"); ("ʒ", "Ʒ"); ("ʝ", "Ʝ"); ("ʞ", "Ʞ"); ("ͅ", "Ι");
  ("ͱ", "Ͱ"); ("ͳ", "Ͳ"); ("ͷ", "Ͷ"); ("ͻ", "Ͻ"); ("ͼ", "Ͼ"); ("ͽ", "Ͽ");
  ("ΐ", "Ϊ́"); ("ά", "Ά"); ("έ", "Έ"); ("ή", "Ή"); ("ί", "Ί"); ("ΰ", "Ϋ́");
  ("α", "Α"); ("β", "Β"); ("γ", "Γ"); ("δ", "Δ"); ("ε", "Ε"); ("ζ", "Ζ");
  ("η", "Η"); ("θ", "Θ"); ("ι", "Ι"); ("κ", "Κ"); ("λ", "Λ"); ("μ", "Μ");
  ("ν", "Ν"); ("ξ", "Ξ"); ("ο", "Ο"); ("π", "Π"); ("ρ", "Ρ"); ("ς", "Σ");
  ("σ", "Σ"); ("τ", "Τ"); ("υ", "Υ"); ("φ", "Φ"); ("χ", "Χ"); ("ψ", "Ψ");
  ("ω", "Ω"); ("ϊ", "Ϊ"); ("ϋ", "Ϋ"); ("ό", "Ό"); ("ύ", "Ύ"); ("ώ", "Ώ");
  ("ϐ", "Β"); ("ϑ", "Θ"); ("ϕ", "Φ"); ("ϖ", "Π"); ("ϗ", "Ϗ"); ("ϙ", "Ϙ");
  ("ϛ", "Ϛ"); ("ϝ", "Ϝ"); ("ϟ", "Ϟ"); ("ϡ", "Ϡ"); ("ϣ", "Ϣ"); ("ϥ", "Ϥ");
  ("ϧ", "Ϧ"); ("ϩ", "Ϩ"); ("ϫ", "Ϫ"); ("ϭ", "Ϭ"); ("ϯ", "Ϯ"); ("ϰ", "Κ");
  ("ϱ", "Ρ"); ("ϲ", "Ϲ"); ("ϳ", "Ϳ"); ("ϵ", "Ε"); ("ϸ", "Ϸ"); ("ϻ", "Ϻ");
  ("а", "А"); ("б", "Б"); ("в", "В"); ("г", "Г"); ("д", "Д"); ("е", "Е");
  ("ж", "Ж"); ("з", "З"); ("и", "И"); ("й", "Й"); ("к", "К"); ("л", "Л");
  ("м", "М"); ("н", "Н"); ("о", "О"); ("п", "П"); ("р", "Р"); ("с", "С");
  ("т", "Т"); ("у", "У"); ("ф", "Ф"); ("х", "Х"); ("ц", "Ц"); ("ч", "Ч");
  ("ш", "Ш"); ("щ", "Щ"); ("ъ", "Ъ"); ("ы", "Ы"); ("ь", "Ь"); ("э", "Э");
  ("ю", "Ю"); ("я", "Я"); ("ѐ", "Ѐ"); ("ё", "Ё"); ("ђ", "Ђ"); ("ѓ", "Ѓ");
  ("є", "Є"); ("ѕ", "Ѕ"); ("і", "І"); ("ї", "Ї"); ("ј", "Ј"); ("љ", "Љ");
  ("њ", "Њ"); ("ћ", "Ћ"); ("ќ", "Ќ"); ("ѝ", "Ѝ"); ("ў", "Ў"); ("џ", "Џ");
  ("ѡ", "Ѡ"); ("ѣ", "Ѣ"); ("ѥ", "Ѥ"); ("ѧ", "Ѧ"); ("ѩ", "Ѩ"); ("ѫ", "Ѫ");
  ("ѭ", "Ѭ"); ("ѯ", "Ѯ"); ("ѱ", "Ѱ"); ("ѳ", "Ѳ"); ("ѵ", "Ѵ"); ("ѷ", "Ѷ");
  ("ѹ", "Ѹ"); ("ѻ", "Ѻ"); ("ѽ", "Ѽ"); ("ѿ", "Ѿ"); ("ҁ", "Ҁ"); ("ҋ", "Ҋ");
  ("ҍ", "Ҍ"); ("ҏ", "Ҏ"); ("ґ", "Ґ"); ("ғ", "Ғ"); ("ҕ", "Ҕ"); ("җ", "Җ");
  ("ҙ", "Ҙ"); ("қ", "Қ"); ("ҝ", "Ҝ"); ("ҟ", "Ҟ"); ("ҡ", "Ҡ"); ("ң", "Ң");
  ("ҥ", "Ҥ"); ("ҧ", "Ҧ"); ("ҩ", "Ҩ"); ("ҫ", "Ҫ"); ("ҭ", "Ҭ"); ("ү", "Ү");
  ("ұ", "Ұ"); ("ҳ", "Ҳ"); ("ҵ", "Ҵ"); ("ҷ", "Ҷ"); ("ҹ", "Ҹ"); ("һ", "Һ");
  ("ҽ", "Ҽ"); ("ҿ", "Ҿ"); ("ӂ", "Ӂ"); ("ӄ", "Ӄ"); ("ӆ", "Ӆ"); ("ӈ", "Ӈ");
  ("ӊ", "Ӊ"); ("ӌ", "Ӌ"); ("ӎ", "Ӎ"); ("ӏ", "Ӏ"); ("ӑ", "Ӑ"); ("ӓ", "Ӓ");
  ("ӕ", "Ӕ"); ("ӗ", "Ӗ"); ("ә", "Ә"); ("ӛ", "Ӛ"); ("ӝ", "Ӝ"); ("ӟ", "Ӟ");
  ("ӡ", "Ӡ"); ("ӣ", "Ӣ"); ("ӥ", "Ӥ"); ("ӧ", "Ӧ"); ("ө", "Ө"); ("ӫ", "Ӫ");
  ("ӭ", "Ӭ"); ("ӯ", "Ӯ"); ("ӱ", "Ӱ"); ("ӳ", "Ӳ"); ("ӵ", "Ӵ"); ("ӷ", "Ӷ");
  ("ӹ", "Ӹ"); ("ӻ", "Ӻ"); ("ӽ", "Ӽ"); ("ӿ", "Ӿ"); ("ԁ", "Ԁ"); ("ԃ", "Ԃ");
  ("ԅ", "Ԅ"); ("ԇ", "Ԇ"); ("ԉ", "Ԉ"); ("ԋ", "Ԋ"); ("ԍ", "Ԍ"); ("ԏ", "Ԏ");
  ("ԑ", "Ԑ"); ("ԓ", "Ԓ"); ("ԕ", "Ԕ"); ("ԗ", "Ԗ"); ("ԙ", "Ԙ"); ("ԛ", "Ԛ");
  ("ԝ", "Ԝ"); ("ԟ", "Ԟ"); ("ԡ", "Ԡ"); ("ԣ", "Ԣ"); ("ԥ", "Ԥ"); ("ԧ", "Ԧ");
  ("ԩ", "Ԩ"); ("ԫ", "Ԫ"); ("ԭ", "Ԭ"); ("ԯ", "Ԯ"); ("ա", "Ա"); ("բ", "Բ");
  ("գ", "Գ"); ("դ", "Դ"); ("ե", "Ե"); ("զ", "Զ"); ("է", "Է"); ("ը", "Ը");
  ("թ", "Թ"); ("ժ", "Ժ"); ("ի", "Ի"); ("լ", "Լ"); ("խ", "Խ"); ("ծ", "Ծ");
  ("կ", "Կ"); ("հ", "Հ"); ("ձ", "Ձ"); ("ղ", "Ղ"); ("ճ", "Ճ"); ("մ", "Մ");
  ("յ", "Յ"); ("ն", "Ն"); ("շ", "Շ"); ("ո", "Ո"); ("չ", "Չ"); ("պ", "Պ");
  ("ջ", "Ջ"); ("ռ", "Ռ"); ("ս", "Ս"); ("վ", "Վ"); ("տ", "Տ"); ("ր", "Ր");
  ("ց", "Ց"); ("ւ", "Ւ"); ("փ", "Փ"); ("ք", "Ք"); ("օ", "Օ"); ("ֆ", "Ֆ");
  ("և", "ԵՒ"); ("ა", "Ა"); ("ბ", "Ბ"); ("გ", "Გ"); ("დ", "Დ"); ("ე", "Ე");
  ("ვ", "Ვ"); ("ზ", "Ზ"); ("თ", "Თ"); ("ი", "Ი"); ("კ", "Კ"); ("ლ", "Ლ");
  ("მ", "Მ"); ("ნ", "Ნ"); ("ო", "Ო"); ("პ", "Პ"); ("ჟ", "Ჟ"); ("რ", "Რ");
  ("ს", "Ს"); ("ტ", "Ტ"); ("უ", "Უ"); ("ფ", "Ფ"); ("ქ", "Ქ"); ("ღ", "Ღ");
  ("ყ", "Ყ"); ("შ", "Შ"); ("ჩ", "Ჩ"); ("ც", "Ც"); ("ძ", "Ძ"); ("წ", "Წ");
  ("ჭ", "Ჭ"); ("ხ", "Ხ"); ("ჯ", "Ჯ"); ("ჰ", "Ჰ"); ("ჱ", "Ჱ"); ("ჲ", "Ჲ");
  ("ჳ", "Ჳ"); ("ჴ", "Ჴ"); ("ჵ", "Ჵ"); ("ჶ", "Ჶ"); ("ჷ", "Ჷ"); ("ჸ", "Ჸ");
  ("ჹ", "Ჹ"); ("ჺ", "Ჺ"); ("ჽ", "Ჽ"); ("ჾ", "Ჾ"); ("ჿ", "Ჿ"); ("ᏸ", "Ᏸ");
  ("ᏹ", "Ᏹ"); ("ᏺ", "Ᏺ"); ("ᏻ", "Ᏻ"); ("ᏼ", "Ᏼ"); ("ᏽ", "Ᏽ"); ("ᲀ", "В");
  ("ᲁ", "Д"); ("ᲂ", "О"); ("ᲃ", "С"); ("ᲄ", "Т"); ("ᲅ", "Т"); ("ᲆ", "Ъ");
  ("ᲇ", "Ѣ"); ("ᲈ", "Ꙋ"); ("ᵹ", "Ᵹ"); ("ᵽ", "Ᵽ"); ("ᶎ", "Ᶎ"); ("ḁ", "Ḁ");
  ("ḃ", "Ḃ"); ("ḅ", "Ḅ"); ("ḇ", "Ḇ"); ("ḉ", "Ḉ"); ("ḋ", "Ḋ"); ("ḍ", "Ḍ");
  ("ḏ", "Ḏ"); ("ḑ", "Ḑ"); ("ḓ", "Ḓ"); ("ḕ", "Ḕ"); ("ḗ", "Ḗ"); ("ḙ", "Ḙ");
  ("ḛ", "Ḛ"); ("ḝ", "Ḝ"); ("ḟ", "Ḟ"); ("ḡ", "Ḡ"); ("ḣ", "Ḣ"); ("ḥ", "Ḥ");
  ("ḧ", "Ḧ"); ("ḩ", "Ḩ"); ("ḫ", "Ḫ"); ("ḭ", "Ḭ"); ("ḯ", "Ḯ"); ("ḱ", "Ḱ");
  ("ḳ", "Ḳ"); ("ḵ", "Ḵ"); ("ḷ", "Ḷ"); ("ḹ", "Ḹ"); ("ḻ", "Ḻ"); ("ḽ", "Ḽ");
  ("ḿ", "Ḿ"); ("ṁ", "Ṁ"); ("ṃ", "Ṃ"); ("ṅ", "Ṅ"); ("ṇ", "Ṇ"); ("ṉ", "Ṉ");
  ("ṋ", "Ṋ"); ("ṍ", "Ṍ"); ("ṏ", "Ṏ"); ("ṑ", "Ṑ"); ("ṓ", "Ṓ"); ("ṕ", "Ṕ");
  ("ṗ", "Ṗ"); ("ṙ", "Ṙ"); ("ṛ", "Ṛ"); ("ṝ", "Ṝ"); ("ṟ", "Ṟ"); ("ṡ", "Ṡ");
  ("ṣ", "Ṣ"); ("ṥ", "Ṥ"); ("ṧ", "Ṧ"); ("ṩ", "Ṩ"); ("ṫ", "Ṫ"); ("ṭ", "Ṭ");
  ("ṯ", "Ṯ"); ("ṱ", "Ṱ"); ("ṳ", "Ṳ"); ("ṵ", "Ṵ"); ("ṷ", "Ṷ"); ("ṹ", "Ṹ");
  ("ṻ", "Ṻ"); ("ṽ", "Ṽ"); ("ṿ", "Ṿ"); ("ẁ", "Ẁ"); ("ẃ", "Ẃ"); ("ẅ", "Ẅ");
  ("ẇ", "Ẇ"); ("ẉ", "Ẉ"); ("ẋ", "Ẋ"); ("ẍ", "Ẍ"); ("ẏ", "Ẏ"); ("ẑ", "Ẑ");
  ("ẓ", "Ẓ"); ("ẕ", "Ẕ"); ("ẖ", "H̱"); ("ẗ", "T̈"); ("ẘ", "W̊"); ("ẙ", "Y̊");
  ("ẚ", "Aʾ"); ("ẛ", "Ṡ"); ("ạ", "Ạ"); ("ả", "Ả"); ("ấ", "Ấ"); ("ầ", "Ầ");
  ("ẩ", "Ẩ"); ("ẫ", "Ẫ"); ("ậ", "Ậ"); ("ắ", "Ắ"); ("ằ", "Ằ"); ("ẳ", "Ẳ");
  ("ẵ", "Ẵ"); ("ặ", "Ặ"); ("ẹ", "Ẹ"); ("ẻ", "Ẻ"); ("ẽ", "Ẽ"); ("ế", "Ế");
  ("ề", "Ề"); ("ể", "Ể"); ("ễ", "Ễ"); ("ệ", "Ệ"); ("ỉ", "Ỉ"); ("ị", "Ị");
  ("ọ", "Ọ"); ("ỏ", "Ỏ"); ("ố", "Ố"); ("ồ", "Ồ"); ("ổ", "Ổ"); ("ỗ", "Ỗ");
  ("ộ", "Ộ"); ("ớ", "Ớ"); ("ờ", "Ờ"); ("ở", "Ở"); ("ỡ", "Ỡ"); ("ợ", "Ợ");
  ("ụ", "Ụ"); ("ủ", "Ủ"); ("ứ", "Ứ"); ("ừ", "Ừ"); ("ử", "Ử"); ("ữ", "Ữ");
  ("ự", "Ự"); ("ỳ", "Ỳ"); ("ỵ", "Ỵ"); ("ỷ", "Ỷ"); ("ỹ", "Ỹ"); ("ỻ", "Ỻ");
  ("ỽ", "Ỽ"); ("ỿ", "Ỿ"); ("ἀ", "Ἀ"); ("ἁ", "Ἁ"); ("ἂ", "Ἂ"); ("ἃ", "Ἃ");
  ("ἄ", "Ἄ"); ("ἅ", "Ἅ"); ("ἆ", "Ἆ"); ("ἇ", "Ἇ"); ("ἐ", "Ἐ"); ("ἑ", "Ἑ");
  ("ἒ", "Ἒ"); ("ἓ", "Ἓ"); ("ἔ", "Ἔ"); ("ἕ", "Ἕ"); ("ἠ", "Ἠ"); ("ἡ", "Ἡ");
  ("ἢ", "Ἢ"); ("ἣ", "Ἣ"); ("ἤ", "Ἤ"); ("ἥ", "Ἥ"); ("ἦ", "Ἦ"); ("ἧ", "Ἧ");
  ("ἰ", "Ἰ"); ("ἱ", "Ἱ"); ("ἲ", "Ἲ"); ("ἳ", "Ἳ"); ("ἴ", "Ἴ"); ("ἵ", "Ἵ");
  ("ἶ", "Ἶ"); ("ἷ", "Ἷ"); ("ὀ", "Ὀ"); ("ὁ", "Ὁ"); ("ὂ", "Ὂ"); ("ὃ", "Ὃ");
  ("ὄ", "Ὄ"); ("ὅ", "Ὅ"); ("ὐ", "Υ̓"); ("ὑ", "Ὑ"); ("ὒ", "Υ̓̀"); ("ὓ", "Ὓ");
  ("ὔ", "Υ̓́"); ("ὕ", "Ὕ"); ("ὖ", "Υ̓͂"); ("ὗ", "Ὗ"); ("ὠ", "Ὠ"); ("ὡ", "Ὡ");
  ("ὢ", "Ὢ"); ("ὣ", "Ὣ"); ("ὤ", "Ὤ"); ("ὥ", "Ὥ"); ("ὦ", "Ὦ"); ("ὧ", "Ὧ");
  ("ὰ", "Ὰ"); ("ά", "Ά"); ("ὲ", "Ὲ"); ("έ", "Έ"); ("ὴ", "Ὴ"); ("ή", "Ή");
  ("ὶ", "Ὶ"); ("ί", "Ί"); ("ὸ", "Ὸ"); ("ό", "Ό"); ("ὺ", "Ὺ"); ("ύ", "Ύ");
  ("ὼ", "Ὼ"); ("ώ", "Ώ"); ("ᾀ", "ἈΙ"); ("ᾁ", "ἉΙ"); ("ᾂ", "ἊΙ"); ("ᾃ", "ἋΙ");
  ("ᾄ", "ἌΙ"); ("ᾅ", "ἍΙ"); ("ᾆ", "ἎΙ"); ("ᾇ", "ἏΙ"); ("ᾈ", "ἈΙ"); ("ᾉ", "ἉΙ");
  ("ᾊ", "ἊΙ"); ("ᾋ", "ἋΙ"); ("ᾌ", "ἌΙ"); ("ᾍ", "ἍΙ"); ("ᾎ", "ἎΙ"); ("ᾏ", "ἏΙ");
  ("ᾐ", "ἨΙ"); ("ᾑ", "ἩΙ"); ("ᾒ", "ἪΙ"); ("ᾓ", "ἫΙ"); ("ᾔ", "ἬΙ"); ("ᾕ", "ἭΙ");
  ("ᾖ", "ἮΙ"); ("ᾗ", "ἯΙ"); ("ᾘ", "ἨΙ"); ("ᾙ", "ἩΙ"); ("ᾚ", "ἪΙ"); ("ᾛ", "ἫΙ");
  ("ᾜ", "ἬΙ"); ("ᾝ", "ἭΙ"); ("ᾞ", "ἮΙ"); ("ᾟ", "ἯΙ"); ("ᾠ", "ὨΙ"); ("ᾡ", "ὩΙ");
  ("ᾢ", "ὪΙ"); ("ᾣ", "ὫΙ"); ("ᾤ", "ὬΙ"); ("ᾥ", "ὭΙ"); ("ᾦ", "ὮΙ"); ("ᾧ", "ὯΙ");
  ("ᾨ", "ὨΙ"); ("ᾩ", "ὩΙ"); ("ᾪ", "ὪΙ"); ("ᾫ", "ὫΙ"); ("ᾬ", "ὬΙ"); ("ᾭ", "ὭΙ");
  ("ᾮ", "ὮΙ"); ("ᾯ", "ὯΙ"); ("ᾰ", "Ᾰ"); ("ᾱ", "Ᾱ"); ("ᾲ", "ᾺΙ"); ("ᾳ", "ΑΙ");
  ("ᾴ", "ΆΙ"); ("ᾶ", "Α͂"); ("ᾷ", "Α͂Ι"); ("ᾼ", "ΑΙ"); ("ι", "Ι"); ("ῂ", "ῊΙ");
  ("ῃ", "ΗΙ"); ("ῄ", "ΉΙ"); ("ῆ", "Η͂"); ("ῇ", "Η͂Ι"); ("ῌ", "ΗΙ"); ("ῐ", "Ῐ");
  ("ῑ", "Ῑ"); ("ῒ", "Ϊ̀"); ("ΐ", "Ϊ́"); ("ῖ", "Ι͂"); ("ῗ", "Ϊ͂"); ("ῠ", "Ῠ");
  ("ῡ", "Ῡ"); ("ῢ", "Ϋ̀"); ("ΰ", "Ϋ́"); ("ῤ", "Ρ̓"); ("ῥ", "Ῥ"); ("ῦ", "Υ͂");
  ("ῧ", "Ϋ͂"); ("ῲ", "ῺΙ"); ("ῳ", "ΩΙ"); ("ῴ", "ΏΙ"); ("ῶ", "Ω͂"); ("ῷ", "Ω͂Ι");
  ("ῼ", "ΩΙ"); ("ⅎ", "Ⅎ"); ("ⅰ", "Ⅰ"); ("ⅱ", "Ⅱ"); ("ⅲ", "Ⅲ"); ("ⅳ", "Ⅳ");
  ("ⅴ", "Ⅴ"); ("ⅵ", "Ⅵ"); ("ⅶ", "Ⅶ"); ("ⅷ", "Ⅷ"); ("ⅸ", "Ⅸ"); ("ⅹ", "Ⅹ");
  ("ⅺ", "Ⅺ"); ("ⅻ", "Ⅻ"); ("ⅼ", "Ⅼ"); ("ⅽ", "Ⅽ"); ("ⅾ", "Ⅾ"); ("ⅿ", "Ⅿ");
  ("ↄ", "Ↄ"); ("ⓐ", "Ⓐ"); ("ⓑ", "Ⓑ"); ("ⓒ", "Ⓒ"); ("ⓓ", "Ⓓ"); ("ⓔ", "Ⓔ");
  ("ⓕ", "Ⓕ"); ("ⓖ", "Ⓖ"); ("ⓗ", "Ⓗ"); ("ⓘ", "Ⓘ"); ("ⓙ", "Ⓙ"); ("ⓚ", "Ⓚ");
  ("ⓛ", "Ⓛ"); ("ⓜ", "Ⓜ"); ("ⓝ", "Ⓝ"); ("ⓞ", "Ⓞ"); ("ⓟ", "Ⓟ"); ("ⓠ", "Ⓠ");
  ("ⓡ", "Ⓡ"); ("ⓢ", "Ⓢ"); ("ⓣ", "Ⓣ"); ("ⓤ", "Ⓤ"); ("ⓥ", "Ⓥ"); ("ⓦ", "Ⓦ");
  ("ⓧ", "Ⓧ"); ("ⓨ", "Ⓨ"); ("ⓩ", "Ⓩ"); ("ⰰ", "Ⰰ"); ("ⰱ", "Ⰱ"); ("ⰲ", "Ⰲ");
  ("ⰳ", "Ⰳ"); ("ⰴ", "Ⰴ"); ("ⰵ", "Ⰵ"); ("ⰶ", "Ⰶ"); ("ⰷ", "Ⰷ"); ("ⰸ", "Ⰸ");
  ("ⰹ", "Ⰹ"); ("ⰺ", "Ⰺ"); ("ⰻ", "Ⰻ"); ("ⰼ", "Ⰼ"); ("ⰽ", "Ⰽ"); ("ⰾ", "Ⰾ");
  ("ⰿ", "Ⰿ"); ("ⱀ", "Ⱀ"); ("ⱁ", "Ⱁ"); ("ⱂ", "Ⱂ"); ("ⱃ", "Ⱃ"); ("ⱄ", "Ⱄ");
  ("ⱅ", "Ⱅ"); ("ⱆ", "Ⱆ"); ("ⱇ", "Ⱇ"); ("ⱈ", "Ⱈ"); ("ⱉ", "Ⱉ"); ("ⱊ", "Ⱊ");
  ("ⱋ", "Ⱋ"); ("ⱌ", "Ⱌ"); ("ⱍ", "Ⱍ"); ("ⱎ", "Ⱎ"); ("ⱏ", "Ⱏ"); ("ⱐ", "Ⱐ");
  ("ⱑ", "Ⱑ"); ("ⱒ", "Ⱒ"); ("ⱓ", "Ⱓ"); ("ⱔ", "Ⱔ"); ("ⱕ", "Ⱕ"); ("ⱖ", "Ⱖ");
  ("ⱗ", "Ⱗ"); ("ⱘ", "Ⱘ"); ("ⱙ", "Ⱙ"); ("ⱚ", "Ⱚ"); ("ⱛ", "Ⱛ"); ("ⱜ", "Ⱜ");
  ("ⱝ", "Ⱝ"); ("ⱞ", "Ⱞ"); ("ⱟ", "Ⱟ"); ("ⱡ", "Ⱡ"); ("ⱥ", "Ⱥ"); ("ⱦ", "Ⱦ");
  ("ⱨ", "Ⱨ"); ("ⱪ", "Ⱪ"); ("ⱬ", "Ⱬ"); ("ⱳ", "Ⱳ"); ("ⱶ", "Ⱶ"); ("ⲁ", "Ⲁ");
  ("ⲃ", "Ⲃ"); ("ⲅ", "Ⲅ"); ("ⲇ", "Ⲇ"); ("ⲉ", "Ⲉ"); ("ⲋ", "Ⲋ"); ("ⲍ", "Ⲍ");
  ("ⲏ", "Ⲏ"); ("ⲑ", "Ⲑ"); ("ⲓ", "Ⲓ"); ("ⲕ", "Ⲕ"); ("ⲗ", "Ⲗ"); ("ⲙ", "Ⲙ");
  ("ⲛ", "Ⲛ"); ("ⲝ", "Ⲝ"); ("ⲟ", "Ⲟ"); ("ⲡ", "Ⲡ"); ("ⲣ", "Ⲣ"); ("ⲥ", "Ⲥ");
  ("ⲧ", "Ⲧ"); ("ⲩ", "Ⲩ"); ("ⲫ", "Ⲫ"); ("ⲭ", "Ⲭ"); ("ⲯ", "Ⲯ"); ("ⲱ", "Ⲱ");
  ("ⲳ", "Ⲳ"); ("ⲵ", "Ⲵ"); ("ⲷ", "Ⲷ"); ("ⲹ", "Ⲹ"); ("ⲻ", "Ⲻ"); ("ⲽ", "Ⲽ");
  ("ⲿ", "Ⲿ"); ("ⳁ", "Ⳁ"); ("ⳃ", "Ⳃ"); ("ⳅ", "Ⳅ"); ("ⳇ", "Ⳇ"); ("ⳉ", "Ⳉ");
  ("ⳋ", "Ⳋ"); ("ⳍ", "Ⳍ"); ("ⳏ", "Ⳏ"); ("ⳑ", "Ⳑ"); ("ⳓ", "Ⳓ"); ("ⳕ", "Ⳕ");
  ("ⳗ", "Ⳗ"); ("ⳙ", "Ⳙ"); ("ⳛ", "Ⳛ"); ("ⳝ", "Ⳝ"); ("ⳟ", "Ⳟ"); ("ⳡ", "Ⳡ");
  ("ⳣ", "Ⳣ"); ("ⳬ", "Ⳬ"); ("ⳮ", "Ⳮ"); ("ⳳ", "Ⳳ"); ("ⴀ", "Ⴀ"); ("ⴁ", "Ⴁ");
  ("ⴂ", "Ⴂ"); ("ⴃ", "Ⴃ"); ("ⴄ", "Ⴄ"); ("ⴅ", "Ⴅ"); ("ⴆ", "Ⴆ"); ("ⴇ", "Ⴇ");
  ("ⴈ", "Ⴈ"); ("ⴉ", "Ⴉ"); ("ⴊ", "Ⴊ"); ("ⴋ", "Ⴋ"); ("ⴌ", "Ⴌ"); ("ⴍ", "Ⴍ");
  ("ⴎ", "Ⴎ"); ("ⴏ", "Ⴏ"); ("ⴐ", "Ⴐ"); ("ⴑ", "Ⴑ"); ("ⴒ", "Ⴒ"); ("ⴓ", "Ⴓ");
  ("ⴔ", "Ⴔ"); ("ⴕ", "Ⴕ"); ("ⴖ", "Ⴖ"); ("ⴗ", "Ⴗ"); ("ⴘ", "Ⴘ"); ("ⴙ", "Ⴙ");
  ("ⴚ", "Ⴚ"); ("ⴛ", "Ⴛ"); ("ⴜ", "Ⴜ"); ("ⴝ", "Ⴝ"); ("ⴞ", "Ⴞ"); ("ⴟ", "Ⴟ");
  ("ⴠ", "Ⴠ"); ("ⴡ", "Ⴡ"); ("ⴢ", "Ⴢ"); ("ⴣ", "Ⴣ"); ("ⴤ", "Ⴤ"); ("ⴥ", "Ⴥ");
  ("ⴧ", "Ⴧ"); ("ⴭ", "Ⴭ"); ("ꙁ", "Ꙁ"); ("ꙃ", "Ꙃ"); ("ꙅ", "Ꙅ"); ("ꙇ", "Ꙇ");
  ("ꙉ", "Ꙉ"); ("ꙋ", "Ꙋ"); ("ꙍ", "Ꙍ"); ("ꙏ", "Ꙏ"); ("ꙑ", "Ꙑ"); ("ꙓ", "Ꙓ");
  ("ꙕ", "Ꙕ"); ("ꙗ", "Ꙗ"); ("ꙙ", "Ꙙ"); ("ꙛ", "Ꙛ"); ("ꙝ", "Ꙝ"); ("ꙟ", "Ꙟ");
  ("ꙡ", "Ꙡ"); ("ꙣ", "Ꙣ"); ("ꙥ", "Ꙥ"); ("ꙧ", "Ꙧ"); ("ꙩ", "Ꙩ"); ("ꙫ", "Ꙫ");
  ("ꙭ", "Ꙭ"); ("ꚁ", "Ꚁ"); ("ꚃ", "Ꚃ"); ("ꚅ", "Ꚅ"); ("ꚇ", "Ꚇ"); ("ꚉ", "Ꚉ");
  ("ꚋ", "Ꚋ"); ("ꚍ", "Ꚍ"); ("ꚏ", "Ꚏ"); ("ꚑ", "Ꚑ"); ("ꚓ", "Ꚓ"); ("ꚕ", "Ꚕ");
  ("ꚗ", "Ꚗ"); ("ꚙ", "Ꚙ"); ("ꚛ", "Ꚛ"); ("ꜣ", "Ꜣ"); ("ꜥ", "Ꜥ"); ("ꜧ", "Ꜧ");
  ("ꜩ", "Ꜩ"); ("ꜫ", "Ꜫ"); ("ꜭ", "Ꜭ"); ("ꜯ", "Ꜯ"); ("ꜳ", "Ꜳ"); ("ꜵ", "Ꜵ");
  ("ꜷ", "Ꜷ"); ("ꜹ", "Ꜹ"); ("ꜻ", "Ꜻ"); ("ꜽ", "Ꜽ"); ("ꜿ", "Ꜿ"); ("ꝁ", "Ꝁ");
  ("ꝃ", "Ꝃ"); ("ꝅ", "Ꝅ"); ("ꝇ", "Ꝇ"); ("ꝉ", "Ꝉ"); ("ꝋ", "Ꝋ"); ("ꝍ", "Ꝍ");
  ("ꝏ", "Ꝏ"); ("ꝑ", "Ꝑ"); ("ꝓ", "Ꝓ"); ("ꝕ", "Ꝕ"); ("ꝗ", "Ꝗ"); ("ꝙ", "Ꝙ");
  ("ꝛ", "Ꝛ"); ("ꝝ", "Ꝝ"); ("ꝟ", "Ꝟ"); ("ꝡ", "Ꝡ"); ("ꝣ", "Ꝣ"); ("ꝥ", "Ꝥ");
  ("ꝧ", "Ꝧ"); ("ꝩ", "Ꝩ"); ("ꝫ", "Ꝫ"); ("ꝭ", "Ꝭ"); ("ꝯ", "Ꝯ"); ("ꝺ", "Ꝺ");
  ("ꝼ", "Ꝼ"); ("ꝿ", "Ꝿ"); ("ꞁ", "Ꞁ"); ("ꞃ", "Ꞃ"); ("ꞅ", "Ꞅ"); ("ꞇ", "Ꞇ");
  ("ꞌ", "Ꞌ"); ("ꞑ", "Ꞑ"); ("ꞓ", "Ꞓ"); ("ꞔ", "Ꞔ"); ("ꞗ", "Ꞗ"); ("ꞙ", "Ꞙ");
  ("ꞛ", "Ꞛ"); ("ꞝ", "Ꞝ"); ("ꞟ", "Ꞟ"); ("ꞡ", "Ꞡ"); ("ꞣ", "Ꞣ"); ("ꞥ", "Ꞥ");
  ("ꞧ", "Ꞧ"); ("ꞩ", "Ꞩ"); ("ꞵ", "Ꞵ"); ("ꞷ", "Ꞷ"); ("ꞹ", "Ꞹ"); ("ꞻ", "Ꞻ");
  ("ꞽ", "Ꞽ"); ("ꞿ", "Ꞿ"); ("ꟁ", "Ꟁ"); ("ꟃ", "Ꟃ"); ("ꟈ", "Ꟈ"); ("ꟊ", "Ꟊ");
  ("ꟑ", "Ꟑ"); ("ꟗ", "Ꟗ"); ("ꟙ", "Ꟙ"); ("ꟶ", "Ꟶ"); ("ꭓ", "Ꭓ"); ("ꭰ", "Ꭰ");
  ("ꭱ", "Ꭱ"); ("ꭲ", "Ꭲ"); ("ꭳ", "Ꭳ"); ("ꭴ", "Ꭴ"); ("ꭵ", "Ꭵ"); ("ꭶ", "Ꭶ");
  ("ꭷ", "Ꭷ"); ("ꭸ", "Ꭸ"); ("ꭹ", "Ꭹ"); ("ꭺ", "Ꭺ"); ("ꭻ", "Ꭻ"); ("ꭼ", "Ꭼ");
  ("ꭽ", "Ꭽ"); ("ꭾ", "Ꭾ"); ("ꭿ", "Ꭿ"); ("ꮀ", "Ꮀ"); ("ꮁ", "Ꮁ"); ("ꮂ", "Ꮂ");
  ("ꮃ", "Ꮃ"); ("ꮄ", "Ꮄ"); ("ꮅ", "Ꮅ"); ("ꮆ", "Ꮆ"); ("ꮇ", "Ꮇ"); ("ꮈ", "Ꮈ");
  ("ꮉ", "Ꮉ"); ("ꮊ", "Ꮊ"); ("ꮋ", "Ꮋ"); ("ꮌ", "Ꮌ"); ("ꮍ", "Ꮍ"); ("ꮎ", "Ꮎ");
  ("ꮏ", "Ꮏ"); ("ꮐ", "Ꮐ"); ("ꮑ", "Ꮑ"); ("ꮒ", "Ꮒ"); ("ꮓ", "Ꮓ"); ("ꮔ", "Ꮔ");
  ("ꮕ", "Ꮕ"); ("ꮖ", "Ꮖ"); ("ꮗ", "Ꮗ"); ("ꮘ", "Ꮘ"); ("ꮙ", "Ꮙ"); ("ꮚ", "Ꮚ");
  ("ꮛ", "Ꮛ"); ("ꮜ", "Ꮜ"); ("ꮝ", "Ꮝ"); ("ꮞ", "Ꮞ"); ("ꮟ", "Ꮟ"); ("ꮠ", "Ꮠ");
  ("ꮡ", "Ꮡ"); ("ꮢ", "Ꮢ"); ("ꮣ", "Ꮣ"); ("ꮤ", "Ꮤ"); ("ꮥ", "Ꮥ"); ("ꮦ", "Ꮦ");
  ("ꮧ", "Ꮧ"); ("ꮨ", "Ꮨ"); ("ꮩ", "Ꮩ"); ("ꮪ", "Ꮪ"); ("ꮫ", "Ꮫ"); ("ꮬ", "Ꮬ");
  ("ꮭ", "Ꮭ"); ("ꮮ", "Ꮮ"); ("ꮯ", "Ꮯ"); ("ꮰ", "Ꮰ"); ("ꮱ", "Ꮱ"); ("ꮲ", "Ꮲ");
  ("ꮳ", "Ꮳ"); ("ꮴ", "Ꮴ"); ("ꮵ", "Ꮵ"); ("ꮶ", "Ꮶ"); ("ꮷ", "Ꮷ"); ("ꮸ", "Ꮸ");
  ("ꮹ", "Ꮹ"); ("ꮺ", "Ꮺ"); ("ꮻ", "Ꮻ"); ("ꮼ", "Ꮼ"); ("ꮽ", "Ꮽ"); ("ꮾ", "Ꮾ");
  ("ꮿ", "Ꮿ"); ("ﬀ", "FF"); ("ﬁ", "FI"); ("ﬂ", "FL"); ("ﬃ", "FFI"); ("ﬄ", "FFL");
  ("ﬅ", "ST"); ("ﬆ", "ST"); ("ﬓ", "ՄՆ"); ("ﬔ", "ՄԵ"); ("ﬕ", "ՄԻ"); ("ﬖ", "ՎՆ");
  ("ﬗ", "ՄԽ"); ("ａ", "Ａ"); ("ｂ", "Ｂ"); ("ｃ", "Ｃ"); ("ｄ", "Ｄ"); ("ｅ", "Ｅ");
  ("ｆ", "Ｆ"); ("ｇ", "Ｇ"); ("ｈ", "Ｈ"); ("ｉ", "Ｉ"); ("ｊ", "Ｊ"); ("ｋ", "Ｋ");
  ("ｌ", "Ｌ"); ("ｍ", "Ｍ"); ("ｎ", "Ｎ"); ("ｏ", "Ｏ"); ("ｐ", "Ｐ"); ("ｑ", "Ｑ");
  ("ｒ", "Ｒ"); ("ｓ", "Ｓ"); ("ｔ", "Ｔ"); ("ｕ", "Ｕ"); ("ｖ", "Ｖ"); ("ｗ", "Ｗ");
  ("ｘ", "Ｘ"); ("ｙ", "Ｙ"); ("ｚ", "Ｚ"); ("𐐨", "𐐀"); ("𐐩", "𐐁"); ("𐐪", "𐐂");
  ("𐐫", "𐐃"); ("𐐬", "𐐄"); ("𐐭", "𐐅"); ("𐐮", "𐐆"); ("𐐯", "𐐇"); ("𐐰", "𐐈");
  ("𐐱", "𐐉"); ("𐐲", "𐐊"); ("𐐳", "𐐋"); ("𐐴", "𐐌"); ("𐐵", "𐐍"); ("𐐶", "𐐎");
  ("𐐷", "𐐏"); ("𐐸", "𐐐"); ("𐐹", "𐐑"); ("𐐺", "𐐒"); ("𐐻", "𐐓"); ("𐐼", "𐐔");
  ("𐐽", "𐐕"); ("𐐾", "𐐖"); ("𐐿", "𐐗"); ("𐑀", "𐐘"); ("𐑁", "𐐙"); ("𐑂", "𐐚");
  ("𐑃", "𐐛"); ("𐑄", "𐐜"); ("𐑅", "𐐝"); ("𐑆", "𐐞"); ("𐑇", "𐐟"); ("𐑈", "𐐠");
  ("𐑉", "𐐡"); ("𐑊", "𐐢"); ("𐑋", "𐐣"); ("𐑌", "𐐤"); ("𐑍", "𐐥"); ("𐑎", "𐐦");
  ("𐑏", "𐐧"); ("𐓘", "𐒰"); ("𐓙", "𐒱"); ("𐓚", "𐒲"); ("𐓛", "𐒳"); ("𐓜", "𐒴");
  ("𐓝", "𐒵"); ("𐓞", "𐒶"); ("𐓟", "𐒷"); ("𐓠", "𐒸"); ("𐓡", "𐒹"); ("𐓢", "𐒺");
  ("𐓣", "𐒻"); ("𐓤", "𐒼"); ("𐓥", "𐒽"); ("𐓦", "𐒾"); ("𐓧", "𐒿"); ("𐓨", "𐓀");
  ("𐓩", "𐓁"); ("𐓪", "𐓂"); ("𐓫", "𐓃"); ("𐓬", "𐓄"); ("𐓭", "𐓅"); ("𐓮", "𐓆");
  ("𐓯", "𐓇"); ("𐓰", "𐓈"); ("𐓱", "𐓉"); ("𐓲", "𐓊"); ("𐓳", "𐓋"); ("𐓴", "𐓌");
  ("𐓵", "𐓍"); ("𐓶", "𐓎"); ("𐓷", "𐓏"); ("𐓸", "𐓐"); ("𐓹", "𐓑"); ("𐓺", "𐓒");
  ("𐓻", "𐓓"); ("𐖗", "𐕰"); ("𐖘", "𐕱"); ("𐖙", "𐕲"); ("𐖚", "𐕳"); ("𐖛", "𐕴");
  ("𐖜", "𐕵"); ("𐖝", "𐕶"); ("𐖞", "𐕷"); ("𐖟", "𐕸"); ("𐖠", "𐕹"); ("𐖡", "𐕺");
  ("𐖣", "𐕼"); ("𐖤", "𐕽"); ("𐖥", "𐕾"); ("𐖦", "𐕿"); ("𐖧", "𐖀"); ("𐖨", "𐖁");
  ("𐖩", "𐖂"); ("𐖪", "𐖃"); ("𐖫", "𐖄"); ("𐖬", "𐖅"); ("𐖭", "𐖆"); ("𐖮", "𐖇");
  ("𐖯", "𐖈"); ("𐖰", "𐖉"); ("𐖱", "𐖊"); ("𐖳", "𐖌"); ("𐖴", "𐖍"); ("𐖵", "𐖎");
  ("𐖶", "𐖏"); ("𐖷", "𐖐"); ("𐖸", "𐖑"); ("𐖹", "𐖒"); ("𐖻", "𐖔"); ("𐖼", "𐖕");
  ("𐳀", "𐲀"); ("𐳁", "𐲁"); ("𐳂", "𐲂"); ("𐳃", "𐲃"); ("𐳄", "𐲄"); ("𐳅", "𐲅");
  ("𐳆", "𐲆"); ("𐳇", "𐲇"); ("𐳈", "𐲈"); ("𐳉", "𐲉"); ("𐳊", "𐲊"); ("𐳋", "𐲋");
  ("𐳌", "𐲌"); ("𐳍", "𐲍"); ("𐳎", "𐲎"); ("𐳏", "𐲏"); ("𐳐", "𐲐"); ("𐳑", "𐲑");
  ("𐳒", "𐲒"); ("𐳓", "𐲓"); ("𐳔", "𐲔"); ("𐳕", "𐲕"); ("𐳖", "𐲖"); ("𐳗", "𐲗");
  ("𐳘", "𐲘"); ("𐳙", "𐲙"); ("𐳚", "𐲚"); ("𐳛", "𐲛"); ("𐳜", "𐲜"); ("𐳝", "𐲝");
  ("𐳞", "𐲞"); ("𐳟", "𐲟"); ("𐳠", "𐲠"); ("𐳡", "𐲡"); ("𐳢", "𐲢"); ("𐳣", "𐲣");
  ("𐳤", "𐲤"); ("𐳥", "𐲥"); ("𐳦", "𐲦"); ("𐳧", "𐲧"); ("𐳨", "𐲨"); ("𐳩", "𐲩");
  ("𐳪", "𐲪"); ("𐳫", "𐲫"); ("𐳬", "𐲬"); ("𐳭", "𐲭"); ("𐳮", "𐲮"); ("𐳯", "𐲯");
  ("𐳰", "𐲰"); ("𐳱", "𐲱"); ("𐳲", "𐲲"); ("𑣀", "𑢠"); ("𑣁", "𑢡"); ("𑣂", "𑢢");
  ("𑣃", "𑢣"); ("𑣄", "𑢤"); ("𑣅", "𑢥"); ("𑣆", "𑢦"); ("𑣇", "𑢧"); ("𑣈", "𑢨");
  ("𑣉", "𑢩"); ("𑣊", "𑢪"); ("𑣋", "𑢫"); ("𑣌", "𑢬"); ("𑣍", "𑢭"); ("𑣎", "𑢮");
  ("𑣏", "𑢯"); ("𑣐", "𑢰"); ("𑣑", "𑢱"); ("𑣒", "𑢲"); ("𑣓", "𑢳"); ("𑣔", "𑢴");
  ("𑣕", "𑢵"); ("𑣖", "𑢶"); ("𑣗", "𑢷"); ("𑣘", "𑢸"); ("𑣙", "𑢹"); ("𑣚", "𑢺");
  ("𑣛", "𑢻"); ("𑣜", "𑢼"); ("𑣝", "𑢽"); ("𑣞", "𑢾"); ("𑣟", "𑢿"); ("𖹠", "𖹀");
  ("𖹡", "𖹁"); ("𖹢", "𖹂"); ("𖹣", "𖹃"); ("𖹤", "𖹄"); ("𖹥", "𖹅"); ("𖹦", "𖹆");
  ("𖹧", "𖹇"); ("𖹨", "𖹈"); ("𖹩", "𖹉"); ("𖹪", "𖹊"); ("𖹫", "𖹋"); ("𖹬", "𖹌");
  ("𖹭", "𖹍"); ("𖹮", "𖹎"); ("𖹯", "𖹏"); ("𖹰", "𖹐"); ("𖹱", "𖹑"); ("𖹲", "𖹒");
  ("𖹳", "𖹓"); ("𖹴", "𖹔"); ("𖹵", "𖹕"); ("𖹶", "𖹖"); ("𖹷", "𖹗"); ("𖹸", "𖹘");
  ("𖹹", "𖹙"); ("𖹺", "𖹚"); ("𖹻", "𖹛"); ("𖹼", "𖹜"); ("𖹽", "𖹝"); ("𖹾", "𖹞");
  ("𖹿", "𖹟"); ("𞤢", "𞤀"); ("𞤣", "𞤁"); ("𞤤", "𞤂"); ("𞤥", "𞤃"); ("𞤦", "𞤄");
  ("𞤧", "𞤅"); ("𞤨", "𞤆"); ("𞤩", "𞤇"); ("𞤪", "𞤈"); ("𞤫", "𞤉"); ("𞤬", "𞤊");
  ("𞤭", "𞤋"); ("𞤮", "𞤌"); ("𞤯", "𞤍"); ("𞤰", "𞤎"); ("𞤱", "𞤏"); ("𞤲", "𞤐");
  ("𞤳", "𞤑"); ("𞤴", "𞤒"); ("𞤵", "𞤓"); ("𞤶", "𞤔"); ("𞤷", "𞤕"); ("𞤸", "𞤖");
  ("𞤹", "𞤗"); ("𞤺", "𞤘"); ("𞤻", "𞤙"); ("𞤼", "𞤚"); ("𞤽", "𞤛"); ("𞤾", "𞤜");
  ("𞤿", "𞤝"); ("𞥀", "𞤞"); ("𞥁", "𞤟"); ("𞥂", "𞤠"); ("𞥃", "𞤡")
].

End Unicode.

(** ** Text *)

Module Text.

(** The double-quote character, for markup attributes. *)
Definition dq : string := String (ascii_of_nat 34) EmptyString.

(** The line feed that ends each line of a template literal. *)
Definition nl : string := String (ascii_of_nat 10) EmptyString.

(** An attribute value between double quotes. *)
Definition q (v : string) : string := dq ++ v ++ dq.

Definition isEmpty (s : string) : bool :=
  match s with EmptyString => true | String _ _ => false end.

Definition is_digit (c : ascii) : bool :=
  let n := nat_of_ascii c in (48 <=? n)%nat && (n <=? 57)%nat.

Definition digit_value (c : ascii) : Z := Z.of_nat (nat_of_ascii c) - 48.

Fixpoint all_digits (s : string) : bool :=
  match s with
  | EmptyString => true
  | String c r => is_digit c && all_digits r
  end.

(** The decimal value of a digit string, most significant digit first. *)
Fixpoint decimal_from (acc : Z) (s : string) : Z :=
  match s with
  | EmptyString => acc
  | String c r => decimal_from (10 * acc + digit_value c) r
  end.

(** [s.split(sep)] for a one-character separator: the pieces between the
    occurrences of [sep], in order; a string without [sep] is one piece. *)
Fixpoint split (sep : ascii) (s : string) : list string :=
  match s with
  | EmptyString => [EmptyString]
  | String c r =>
      if Ascii.eqb c sep then EmptyString :: split sep r
      else match split sep r with
           | piece :: pieces => String c piece :: pieces
           | [] => [String c EmptyString]
           end
  end.

Fixpoint starts_with (pre s : string) : bool :=
  match pre, s with
  | EmptyString, _ => true
  | String _ _, EmptyString => false
  | String a pre', String b s' => Ascii.eqb a b && starts_with pre' s'
  end.

(** [s.includes(sub)]. *)
Fixpoint includes (s sub : string) : bool :=
  starts_with sub s ||
  match s with
  | EmptyString => false
  | String _ r => includes r sub
  end.

(** The white space of one byte: tab, line feed, vertical tab, form feed,
    carriage return and space. *)
Definition is_space (c : ascii) : bool :=
  let n := nat_of_ascii c in
  ((9 <=? n)%nat && (n <=? 13)%nat) || (n =? 32)%nat.

(** The white space of two bytes: U+00A0, the no-break space. *)
Definition is_space2 (a b : ascii) : bool :=
  (nat_of_ascii a =? 194)%nat && (nat_of_ascii b =? 160)%nat.

(** The white space of three bytes: U+1680, U+2000 to U+200A, the line
    and paragraph separators U+2028 and U+2029, U+202F, U+205F, U+3000 and
    the byte order mark U+FEFF. *)
Definition is_space3 (a b c : ascii) : bool :=
  let x := nat_of_ascii a in
  let y := nat_of_ascii b in
  let z := nat_of_ascii c in
  ((x =? 225)%nat && (y =? 154)%nat && (z =? 128)%nat) ||
  ((x =? 226)%nat && (y =? 128)%nat &&
   (((128 <=? z)%nat && (z <=? 138)%nat) ||
    (z =? 168)%nat || (z =? 169)%nat || (z =? 175)%nat)) ||
  ((x =? 226)%nat && (y =? 129)%nat && (z =? 159)%nat) ||
  ((x =? 227)%nat && (y =? 128)%nat && (z =? 128)%nat) ||
  ((x =? 239)%nat && (y =? 187)%nat && (z =? 191)%nat).

(** Removes the white space at the start, one character (of one, two or
    three bytes) at a time. *)
Fixpoint trimStart (s : string) : string :=
  match s with
  | EmptyString => EmptyString
  | String c r =>
      if is_space c then trimStart r
      else
        match r with
        | String c2 r2 =>
            if is_space2 c c2 then trimStart r2
            else
              match r2 with
              | String c3 r3 => if is_space3 c c2 c3 then trimStart r3 else s
              | EmptyString => s
              end
        | EmptyString => s
        end
  end.

(** Removes the white space at the end: the string is cut at the first
    position from which only white space follows. *)
Fixpoint trimEnd (s : string) : string :=
  match s with
  | EmptyString => EmptyString
  | String c r =>
      if isEmpty (trimStart s) then EmptyString else String c (trimEnd r)
  end.

(** [s.trim()]. *)
Definition trim (s : string) : string := trimEnd (trimStart s).

(** The upper-case form of an ASCII character. *)
Definition upper_char (c : ascii) : ascii :=
  let n := nat_of_ascii c in
  if (97 <=? n)%nat && (n <=? 122)%nat then ascii_of_nat (n - 32) else c.

Fixpoint assoc (key : string) (table : list (string * string))
  : option string :=
  match table with
  | [] => None
  | (k, v) :: rest => if String.eqb k key then Some v else assoc key rest
  end.

(** The upper-case form of a character outside ASCII, given in UTF-8. *)
Definition upper_of (character : string) : string :=
  match assoc character Unicode.upper_table with
  | Some upper => upper
  | None => character
  end.

(** [s.toUpperCase()]: the string is read one UTF-8 character at a time,
    by the length its first byte announces; a byte that starts no
    character is kept as it is. *)
Fixpoint toUpperCase (s : string) : string :=
  match s with
  | EmptyString => EmptyString
  | String c r =>
      let n := nat_of_ascii c in
      if (n <? 128)%nat then String (upper_char c) (toUpperCase r)
      else if (n <? 192)%nat then String c (toUpperCase r)
      else if (n <? 224)%nat then
        match r with
        | String c2 r2 =>
            upper_of (String c (String c2 EmptyString)) ++ toUpperCase r2
        | _ => s
        end
      else if (n <? 240)%nat then
        match r with
        | String c2 (String c3 r3) =>
            upper_of (String c (String c2 (String c3 EmptyString))) ++
            toUpperCase r3
        | _ => s
        end
      else
        match r with
        | String c2 (String c3 (String c4 r4)) =>
            upper_of (String c (String c2 (String c3 (String c4 EmptyString))))
            ++ toUpperCase r4
        | _ => s
        end
  end.

Definition hex_digit (n : nat) : ascii :=
  if (n <? 10)%nat then ascii_of_nat (48 + n) else ascii_of_nat (55 + n).

(** The characters [encodeURIComponent] leaves alone: letters, digits and
    [- _ . ! ~ * ' ( )]. *)
Definition is_unreserved (c : ascii) : bool :=
  let n := nat_of_ascii c in
  ((65 <=? n)%nat && (n <=? 90)%nat) ||
  ((97 <=? n)%nat && (n <=? 122)%nat) ||
  ((48 <=? n)%nat && (n <=? 57)%nat) ||
  existsb (Nat.eqb n) [45; 95; 46; 33; 126; 42; 39; 40; 41]%nat.

(** [encodeURIComponent(s)]: every other byte of the UTF-8 text becomes
    [%XX], in upper-case hexadecimal. *)
Fixpoint encodeURIComponent (s : string) : string :=
  match s with
  | EmptyString => EmptyString
  | String c r =>
      if is_unreserved c then String c (encodeURIComponent r)
      else
        let n := nat_of_ascii c in
        String "%" (String (hex_digit (n / 16)) (String (hex_digit (n mod 16))
          (encodeURIComponent r)))
  end.

End Text.

Import Text.

(** ** Numbers *)

(** [Number(s)] on the strings the model covers: at most nine decimal
    digits, the empty string counting as 0. *)
Definition Number (s : string) : option Z :=
  if all_digits s && (String.length s <=? 9)%nat
  then Some (decimal_from 0 s) else None.

(** A number inside a template literal: its decimal digits, with a minus
    sign when negative and no padding. *)
Definition show (z : Z) : string := NilZero.string_of_int (Z.to_int z).

(** ** The duration calculator and the time formatter *)

(** The two numbers bound by [const [h, m] = s.split(':').map(Number)].  A
    missing second piece is [undefined], which is not a modelled number. *)
Definition hoursAndMinutes (s : string) : option (Z * Z) :=
  match map Number (split ":" s) with
  | Some h :: Some m :: _ => Some (h, m)
  | _ => None
  end.

(** The local [durationMinutes] of [calculateDuration]. *)
Definition durationMinutes (departureTime arrivalTime : string) : option Z :=
  match hoursAndMinutes departureTime, hoursAndMinutes arrivalTime with
  | Some (depHours, depMinutes), Some (arrHours, arrMinutes) =>
      let depTotalMinutes := depHours * 60 + depMinutes in
      let arrTotalMinutes := arrHours * 60 + arrMinutes in
      (* Handle next day arrival *)
      let arrTotalMinutes :=
        if arrTotalMinutes <? depTotalMinutes
        then arrTotalMinutes + 24 * 60 else arrTotalMinutes in
      Some (arrTotalMinutes - depTotalMinutes)
  | _, _ => None
  end.

(** [calculateDuration]: [Math.floor(d / 60)] is the floor quotient and
    [d % 60] the remainder with the sign of [d]. *)
Definition calculateDuration (departureTime arrivalTime : string)
  : option string :=
  match durationMinutes departureTime arrivalTime with
  | Some durationMinutes =>
      let hours := durationMinutes / 60 in
      let minutes := Z.rem durationMinutes 60 in
      Some (show hours ++ "h " ++ show minutes ++ "m")
  | None => None
  end.

(** [formatTime]: the two pieces stay strings; [hours % 12] and
    [hours >= 12] convert [hours] to a number, and [x || 12] picks 12 when
    [x] is 0.  A missing minutes piece prints as [undefined]. *)
Definition formatTime (timeString : string) : option string :=
  match split ":" timeString with
  | hours :: rest =>
      let minutes :=
        match rest with m :: _ => m | [] => "undefined" end in
      match Number hours with
      | Some h =>
          let hour12 := if Z.rem h 12 =? 0 then 12 else Z.rem h 12 in
          let ampm := if 12 <=? h then "PM" else "AM" in
          Some (show hour12 ++ ":" ++ minutes ++ " " ++ ampm)
      | None => None
      end
  | [] => None
  end.

(** ** Well-formed times *)

(** Two decimal digits, with a leading zero below ten. *)
Definition pad2 (n : Z) : string :=
  String (ascii_of_nat (48 + Z.to_nat (n / 10)))
    (String (ascii_of_nat (48 + Z.to_nat (n mod 10))) EmptyString).

(** The "HH:MM" string of hour [h] and minute [m]. *)
Definition time_string (h m : Z) : string := pad2 h ++ ":" ++ pad2 m.

(** A well-formed 24-hour time: two digits, a colon, two digits, with the
    hour at most 23 and the minute at most 59. *)
Definition well_formed_time (s : string) : bool :=
  match s with
  | String a (String b (String c (String d (String e EmptyString)))) =>
      is_digit a && is_digit b && Ascii.eqb c ":" && is_digit d && is_digit e
      && (10 * digit_value a + digit_value b <=? 23)
      && (10 * digit_value d + digit_value e <=? 59)
  | _ => false
  end.

(** ** The data of a search result *)

Record StationRef := { stationCode : string; stationName : string }.

Record TrainRef := { trainNumber : string; trainName : string }.

Record TripResult := {
  source : StationRef;
  destination : StationRef;
  train : TrainRef;
  departureTime : string;
  arrivalTime : string
}.

(** A JavaScript error object, as far as the script looks at it. *)
Record Error := { name : string; message : string }.

(** ** The page *)

(** The elements whose [style.display] the script sets. *)
Inductive element := loadingElement | errorMessage | resultsContainer.

(** A train card: [className], the index that gives [style.animationDelay]
    (the script writes [index * 0.1] seconds) and [innerHTML].  The markup
    is [None] when one of its times is outside the modelled numbers. *)
Record card := {
  className : string;
  animationDelay : nat;
  innerHTML : option string
}.

(** A child of the list of trains: a card appended by the script, or the
    markup assigned to the list's [innerHTML]. *)
Inductive node := Card (c : card) | Markup (html : string).

(** The entries of the trace: a [style.display] assignment or a call to
    the browser. *)
Inductive event :=
| PreventDefault
| StyleDisplay (el : element) (value : string)
| Fetch (url : string)
| ConsoleError (label : string) (error : Error)
| ScrollIntoView (el : element) (block : string)
| SetTimeout (delay : Z).

(** The callback the script hands to [setTimeout]. *)
Inductive task := RevealResults.

Record World := {
  sourceCodeValue : string;
  destinationCodeValue : string;
  loadingDisplay : string;
  errorMessageDisplay : string;
  resultsContainerDisplay : string;
  errorTextContent : string;
  routeInfoHTML : string;
  trainsList : list node;
  timers : list (task * Z);
  trace : list event
}.

Definition set_display (el : element) (v : string) (w : World) : World :=
  {| sourceCodeValue := sourceCodeValue w;
     destinationCodeValue := destinationCodeValue w;
     loadingDisplay :=
       match el with loadingElement => v | _ => loadingDisplay w end;
     errorMessageDisplay :=
       match el with errorMessage => v | _ => errorMessageDisplay w end;
     resultsContainerDisplay :=
       match el with resultsContainer => v | _ => resultsContainerDisplay w end;
     errorTextContent := errorTextContent w;
     routeInfoHTML := routeInfoHTML w;
     trainsList := trainsList w;
     timers := timers w;
     trace := trace w |}.

Definition set_errorTextContent (v : string) (w : World) : World :=
  {| sourceCodeValue := sourceCodeValue w;
     destinationCodeValue := destinationCodeValue w;
     loadingDisplay := loadingDisplay w;
     errorMessageDisplay := errorMessageDisplay w;
     resultsContainerDisplay := resultsContainerDisplay w;
     errorTextContent := v;
     routeInfoHTML := routeInfoHTML w;
     trainsList := trainsList w;
     timers := timers w;
     trace := trace w |}.

Definition set_routeInfoHTML (v : string) (w : World) : World :=
  {| sourceCodeValue := sourceCodeValue w;
     destinationCodeValue := destinationCodeValue w;
     loadingDisplay := loadingDisplay w;
     errorMessageDisplay := errorMessageDisplay w;
     resultsContainerDisplay := resultsContainerDisplay w;
     errorTextContent := errorTextContent w;
     routeInfoHTML := v;
     trainsList := trainsList w;
     timers := timers w;
     trace := trace w |}.

Definition set_trainsList (v : list node) (w : World) : World :=
  {| sourceCodeValue := sourceCodeValue w;
     destinationCodeValue := destinationCodeValue w;
     loadingDisplay := loadingDisplay w;
     errorMessageDisplay := errorMessageDisplay w;
     resultsContainerDisplay := resultsContainerDisplay w;
     errorTextContent := errorTextContent w;
     routeInfoHTML := routeInfoHTML w;
     trainsList := v;
     timers := timers w;
     trace := trace w |}.

Definition set_timers (v : list (task * Z)) (w : World) : World :=
  {| sourceCodeValue := sourceCodeValue w;
     destinationCodeValue := destinationCodeValue w;
     loadingDisplay := loadingDisplay w;
     errorMessageDisplay := errorMessageDisplay w;
     resultsContainerDisplay := resultsContainerDisplay w;
     errorTextContent := errorTextContent w;
     routeInfoHTML := routeInfoHTML w;
     trainsList := trainsList w;
     timers := v;
     trace := trace w |}.

Definition record (e : event) (w : World) : World :=
  {| sourceCodeValue := sourceCodeValue w;
     destinationCodeValue := destinationCodeValue w;
     loadingDisplay := loadingDisplay w;
     errorMessageDisplay := errorMessageDisplay w;
     resultsContainerDisplay := resultsContainerDisplay w;
     errorTextContent := errorTextContent w;
     routeInfoHTML := routeInfoHTML w;
     trainsList := trainsList w;
     timers := timers w;
     trace := trace w ++ [e] |}.

(** ** Computations on the page *)

Inductive completion (A : Type) :=
| Normal (a : A)
| Throw (e : Error).

Arguments Normal {A} a.
Arguments Throw {A} e.

Definition M (A : Type) : Type := World -> completion A * World.

Definition ret {A} (a : A) : M A := fun w => (Normal a, w).

Definition bind {A B} (m : M A) (k : A -> M B) : M B :=
  fun w =>
    match m w with
    | (Normal a, w') => k a w'
    | (Throw e, w') => (Throw e, w')
    end.

Definition throw {A} (e : Error) : M A := fun w => (Throw e, w).

(** [try { body } catch (error) { handler }]. *)
Definition try_catch {A} (body : M A) (handler : Error -> M A) : M A :=
  fun w =>
    match body w with
    | (Normal a, w') => (Normal a, w')
    | (Throw e, w') => handler e w'
    end.

(** A statement that only changes the page. *)
Definition update (f : World -> World) : M unit := fun w => (Normal tt, f w).

(** The world a computation leaves behind. *)
Definition exec {A} (m : M A) (w : World) : World := snd (m w).

Declare Scope js_scope.
Delimit Scope js_scope with js.
Notation "x <- c ;; k" := (bind c (fun x => k))
  (at level 61, c at next level, right associativity) : js_scope.
Notation "c ;; k" := (bind c (fun _ => k))
  (at level 61, right associativity) : js_scope.
Open Scope js_scope.

(** [array.forEach((x, index) => f(x, index))], from [index] on. *)
Fixpoint forEach {A} (f : A -> nat -> M unit) (l : list A) (index : nat)
  : M unit :=
  match l with
  | [] => ret tt
  | x :: r => f x index ;; forEach f r (S index)
  end.

(** [el.style.display = v]. *)
Definition style_display (el : element) (v : string) : M unit :=
  update (fun w => record (StyleDisplay el v) (set_display el v w)).

Definition scrollIntoView (el : element) (block : string) : M unit :=
  update (record (ScrollIntoView el block)).

(** [setTimeout(callback, delay)]: the callback waits in [timers]. *)
Definition setTimeout (callback : task) (delay : Z) : M unit :=
  update (fun w =>
    record (SetTimeout delay) (set_timers (timers w ++ [(callback, delay)]) w)).

(** The children an [innerHTML] assignment leaves in the list of trains. *)
Definition parsed (html : string) : list node :=
  if isEmpty html then [] else [Markup html].

Definition appendChild (c : card) : M unit :=
  update (fun w => set_trainsList (trainsList w ++ [Card c]) w).

Definition showLoading : M unit := style_display loadingElement "block".

Definition hideLoading : M unit := style_display loadingElement "none".

Definition showError (message : string) : M unit :=
  update (set_errorTextContent message) ;;
  style_display errorMessage "block" ;;
  scrollIntoView errorMessage "center".

Definition hideError : M unit := style_display errorMessage "none".

Definition hideResults : M unit := style_display resultsContainer "none".

(** The markup of the "no trains found" panel. *)
Definition no_results_markup (sourceCode destinationCode : string) : string :=
    nl ++
    "        <div class=" ++ q "no-results" ++ ">" ++ nl ++
    "            <div class=" ++ q "no-results-icon" ++ ">ðŸš«</div>" ++ nl ++
    "            <h3>No Trains Found</h3>" ++ nl ++
    "            <p>No trains available from <strong>" ++ sourceCode ++ "</strong> to <strong>" ++ destinationCode ++ "</strong></p>" ++ nl ++
    "            <p>Please check the station codes and try again.</p>" ++ nl ++
    "        </div>" ++ nl ++
    "    ".

Definition showNoResults (sourceCode destinationCode : string) : M unit :=
  update (set_trainsList (parsed (no_results_markup sourceCode destinationCode))) ;;
  update (set_routeInfoHTML (sourceCode ++ " â†’ " ++ destinationCode)) ;;
  style_display resultsContainer "block".

(** The markup of a card, given the three computed strings. *)
Definition card_markup (trainData : TripResult)
    (duration departure arrival : string) : string :=
    nl ++
    "        <div class=" ++ q "train-header" ++ ">" ++ nl ++
    "            <div class=" ++ q "train-info" ++ ">" ++ nl ++
    "                <div class=" ++ q "train-name" ++ ">" ++ trainName (train trainData) ++ "</div>" ++ nl ++
    "                <div class=" ++ q "train-number" ++ ">#" ++ trainNumber (train trainData) ++ "</div>" ++ nl ++
    "            </div>" ++ nl ++
    "        </div>" ++ nl ++
    "        " ++ nl ++
    "        <div class=" ++ q "journey-details" ++ ">" ++ nl ++
    "            <div class=" ++ q "station-info" ++ ">" ++ nl ++
    "                <div class=" ++ q "station-time" ++ ">" ++ departure ++ "</div>" ++ nl ++
    "                <div class=" ++ q "station-name" ++ ">" ++ stationName (source trainData) ++ "</div>" ++ nl ++
    "                <div class=" ++ q "station-code" ++ ">" ++ stationCode (source trainData) ++ "</div>" ++ nl ++
    "            </div>" ++ nl ++
    "            " ++ nl ++
    "            <div class=" ++ q "journey-arrow" ++ ">" ++ nl ++
    "                <div class=" ++ q "duration-badge" ++ ">" ++ duration ++ "</div>" ++ nl ++
    "                <div class=" ++ q "arrow-line" ++ "></div>" ++ nl ++
    "            </div>" ++ nl ++
    "            " ++ nl ++
    "            <div class=" ++ q "station-info" ++ ">" ++ nl ++
    "                <div class=" ++ q "station-time" ++ ">" ++ arrival ++ "</div>" ++ nl ++
    "                <div class=" ++ q "station-name" ++ ">" ++ stationName (destination trainData) ++ "</div>" ++ nl ++
    "                <div class=" ++ q "station-code" ++ ">" ++ stationCode (destination trainData) ++ "</div>" ++ nl ++
    "            </div>" ++ nl ++
    "        </div>" ++ nl ++
    "    ".

Definition createTrainCard (trainData : TripResult) (index : nat) : card :=
  let duration :=
    calculateDuration (departureTime trainData) (arrivalTime trainData) in
  {| className := "train-card";
     animationDelay := index;
     innerHTML :=
       match duration, formatTime (departureTime trainData),
             formatTime (arrivalTime trainData) with
       | Some duration, Some departure, Some arrival =>
           Some (card_markup trainData duration departure arrival)
       | _, _, _ => None
       end |}.

(** The route summary written above the cards. *)
Definition route_markup (firstTrain : TripResult) : string :=
    nl ++
    "            " ++ stationName (source firstTrain) ++ " (" ++ stationCode (source firstTrain) ++ ") " ++ nl ++
    "            â†’ " ++ stationName (destination firstTrain) ++ " (" ++ stationCode (destination firstTrain) ++ ")" ++ nl ++
    "        ".

(** [displayResults]; its two code arguments are not used by the body. *)
Definition displayResults (trains : list TripResult)
    (sourceCode destinationCode : string) : M unit :=
  (* Update route information *)
  match trains with
  | firstTrain :: _ => update (set_routeInfoHTML (route_markup firstTrain))
  | [] => ret tt
  end ;;
  (* Clear previous results *)
  update (set_trainsList (parsed EmptyString)) ;;
  (* Create train cards *)
  forEach (fun train index => appendChild (createTrainCard train index))
    trains 0 ;;
  (* Show results with animation delay *)
  setTimeout RevealResults 100.

(** Running a callback that [setTimeout] queued. *)
Definition run_task (t : task) : M unit :=
  match t with
  | RevealResults =>
      style_display resultsContainer "block" ;;
      scrollIntoView resultsContainer "start"
  end.

(** The timers fire in the order they were set (all delays are equal). *)
Definition run_timers : M unit :=
  fun w =>
    forEach (fun t (_ : nat) => run_task (fst t)) (timers w) 0
      (set_timers [] w).

(** ** The search *)

(** An HTTP response: status line and what [response.json()] settles to,
    a rejection or the parsed body ([None] for a JSON [null]). *)
Record Response := {
  status : Z;
  statusText : string;
  body : Error + option (list TripResult)
}.

(** [response.ok]: the status is in the range 200 to 299. *)
Definition ok (response : Response) : bool :=
  (200 <=? status response) && (status response <=? 299).

(** What [await fetch(url)] settles to. *)
Inductive fetch_outcome :=
| Rejected (e : Error)
| Responded (response : Response).

(* API Configuration *)
Definition API_BASE_URL : string := "http://localhost:8080".
Definition SEARCH_ENDPOINT : string := "/search/by-code".

(** The URL [searchTrains] builds for two station codes. *)
Definition search_url (sourceCode destinationCode : string) : string :=
  API_BASE_URL ++ SEARCH_ENDPOINT ++ "?sourceCode=" ++
  encodeURIComponent sourceCode ++ "&destinationCode=" ++
  encodeURIComponent destinationCode.

Definition connectivity_message : string :=
  "Unable to connect to the server. Please check if the API is running on http://localhost:8080".

Section Search.

(** The network: how the request for a URL settles. *)
Variable server : string -> fetch_outcome.

Definition fetch (url : string) : M Response :=
  update (record (Fetch url)) ;;
  match server url with
  | Rejected e => throw e
  | Responded response => ret response
  end.

Definition json (response : Response) : M (option (list TripResult)) :=
  match body response with
  | inl e => throw e
  | inr data => ret data
  end.

Definition console_error (label : string) (error : Error) : M unit :=
  update (record (ConsoleError label error)).

(** [!data || data.length === 0]. *)
Definition no_data (data : option (list TripResult)) : bool :=
  match data with
  | None => true
  | Some trains => (List.length trains =? 0)%nat
  end.

(** The [catch] block of [searchTrains]. *)
Definition searchTrains_catch (error : Error) : M unit :=
  hideLoading ;;
  console_error "Search error:" error ;;
  if String.eqb (name error) "TypeError" && includes (message error) "fetch"
  then showError connectivity_message
  else showError ("Search failed: " ++ message error).

(* Main search function *)
Definition searchTrains (sourceCode destinationCode : string) : M unit :=
  showLoading ;;
  hideError ;;
  hideResults ;;
  try_catch
    (let url := search_url sourceCode destinationCode in
     response <- fetch url ;;
     (if negb (ok response)
      then throw {| name := "Error";
                    message := "HTTP " ++ show (status response) ++ ": " ++
                               statusText response |}
      else ret tt) ;;
     data <- json response ;;
     hideLoading ;;
     if no_data data
     then showNoResults sourceCode destinationCode
     else displayResults (match data with Some trains => trains | None => [] end)
            sourceCode destinationCode)
    searchTrains_catch.

(* Form submission handler *)
Definition searchForm_submit : M unit :=
  update (record PreventDefault) ;;
  fun w =>
    let sourceCode := toUpperCase (trim (sourceCodeValue w)) in
    let destinationCode := toUpperCase (trim (destinationCodeValue w)) in
    (if isEmpty sourceCode || isEmpty destinationCode
     then showError "Please enter both source and destination station codes."
     else if String.eqb sourceCode destinationCode
     then showError "Source and destination stations cannot be the same."
     else searchTrains sourceCode destinationCode) w.

End Search.

(** The requests a trace holds, in order. *)
Fixpoint requests (evs : list event) : list string :=
  match evs with
  | [] => []
  | Fetch url :: r => url :: requests r
  | _ :: r => requests r
  end.


(** The page at the moment [searchTrains] has issued its request: the
    loading indicator shown, the error and results panels hidden. *)
Definition dispatched (sourceCode destinationCode : string) (w : World)
  : World :=
  record (Fetch (search_url sourceCode destinationCode))
    (exec (showLoading ;; hideError ;; hideResults) w).

(** The error [searchTrains] throws on a response that is not ok. *)
Definition http_error (response : Response) : Error :=
  {| name := "Error";
     message := "HTTP " ++ show (status response) ++ ": " ++
                statusText response |}.

(** The cards of a sequence of trips, numbered from [index]. *)
Fixpoint cards (trains : list TripResult) (index : nat) : list node :=
  match trains with
  | [] => []
  | t :: r => Card (createTrainCard t index) :: cards r (S index)
  end.

Definition is_card (n : node) : bool :=
  match n with Card _ => true | Markup _ => false end.

(** ** Sample pages and networks *)

Module Samples.

(** An empty page, nothing typed and nothing shown yet. *)
Definition blank : World :=
  {| sourceCodeValue := EmptyString;
     destinationCodeValue := EmptyString;
     loadingDisplay := EmptyString;
     errorMessageDisplay := EmptyString;
     resultsContainerDisplay := EmptyString;
     errorTextContent := EmptyString;
     routeInfoHTML := EmptyString;
     trainsList := [];
     timers := [];
     trace := [] |}.

(** The blank page with the two fields filled in. *)
Definition typed (src dst : string) : World :=
  {| sourceCodeValue := src;
     destinationCodeValue := dst;
     loadingDisplay := EmptyString;
     errorMessageDisplay := EmptyString;
     resultsContainerDisplay := EmptyString;
     errorTextContent := EmptyString;
     routeInfoHTML := EmptyString;
     trainsList := [];
     timers := [];
     trace := [] |}.

Definition rajdhani : TripResult :=
  {| source := {| stationCode := "NDLS"; stationName := "New Delhi" |};
     destination := {| stationCode := "HWH"; stationName := "Howrah Junction" |};
     train := {| trainNumber := "12302"; trainName := "Rajdhani" |};
     departureTime := "16:55";
     arrivalTime := "09:55" |}.

Definition duronto : TripResult :=
  {| source := {| stationCode := "NDLS"; stationName := "New Delhi" |};
     destination := {| stationCode := "HWH"; stationName := "Howrah Junction" |};
     train := {| trainNumber := "12274"; trainName := "Duronto" |};
     departureTime := "12:40";
     arrivalTime := "05:55" |}.

(** A server that knows no train. *)
Definition empty_server (url : string) : fetch_outcome :=
  Responded {| status := 200; statusText := "OK"; body := inr (Some []) |}.

(** A server that answers 404. *)
Definition missing_server (url : string) : fetch_outcome :=
  Responded {| status := 404; statusText := "Not Found"; body := inr None |}.

(** An unreachable host, as Chrome reports it. *)
Definition unreachable_chrome (url : string) : fetch_outcome :=
  Rejected {| name := "TypeError"; message := "Failed to fetch" |}.

(** An unreachable host, as Safari reports it. *)
Definition unreachable_safari (url : string) : fetch_outcome :=
  Rejected {| name := "TypeError"; message := "Load failed" |}.

End Samples.

(** The integers from 0 to [n - 1]. *)
Definition upto (n : nat) : list Z := map Z.of_nat (seq 0 n).

(** Equality of two lists of pieces, as a boolean. *)
Definition same_pieces (a b : list string) : bool :=
  if list_eq_dec string_dec a b then true else false.

(** The hour and the minute a well-formed time names, read off its
    character positions. *)
Definition hour_of (s : string) : Z :=
  match s with
  | String a (String b _) => 10 * digit_value a + digit_value b
  | _ => 0
  end.

Definition minute_of (s : string) : Z :=
  match s with
  | String _ (String _ (String _ (String d (String e _)))) =>
      10 * digit_value d + digit_value e
  | _ => 0
  end.

(** Minutes since midnight of a well-formed time. *)
Definition minutes_of_day (s : string) : Z := hour_of s * 60 + minute_of s.

(** Every character of [s] satisfies [p]. *)
Fixpoint all_chars (p : ascii -> bool) (s : string) : bool :=
  match s with
  | EmptyString => true
  | String c r => p c && all_chars p r
  end.

(** Reading a 12-hour "H:MM AM/PM" string back as "HH:MM"; only used to
    show that [formatTime] loses nothing. *)
Definition to24h (s : string) : option string :=
  match split ":" s with
  | [H; rest] =>
      match Number H with
      | Some h =>
          let hour := h mod 12 +
                      (if String.eqb (substring 3 2 rest) "PM" then 12 else 0) in
          Some (pad2 hour ++ ":" ++ substring 0 2 rest)
      | None => None
      end
  | _ => None
  end.

(** ** The input filters and the keyboard shortcut *)

Definition is_upper_letter (c : ascii) : bool :=
  let n := nat_of_ascii c in (65 <=? n)%nat && (n <=? 90)%nat.

Definition is_letter (c : ascii) : bool :=
  let n := nat_of_ascii c in
  ((65 <=? n)%nat && (n <=? 90)%nat) || ((97 <=? n)%nat && (n <=? 122)%nat).

(** [s.replace(/[^A-Za-z]/g, '')]: every character that is not an ASCII
    letter is dropped. *)
Fixpoint removeNonLetters (s : string) : string :=
  match s with
  | EmptyString => EmptyString
  | String c r =>
      if is_letter c then String c (removeNonLetters r)
      else removeNonLetters r
  end.

Definition set_sourceCodeValue (v : string) (w : World) : World :=
  {| sourceCodeValue := v;
     destinationCodeValue := destinationCodeValue w;
     loadingDisplay := loadingDisplay w;
     errorMessageDisplay := errorMessageDisplay w;
     resultsContainerDisplay := resultsContainerDisplay w;
     errorTextContent := errorTextContent w;
     routeInfoHTML := routeInfoHTML w;
     trainsList := trainsList w;
     timers := timers w;
     trace := trace w |}.

Definition set_destinationCodeValue (v : string) (w : World) : World :=
  {| sourceCodeValue := sourceCodeValue w;
     destinationCodeValue := v;
     loadingDisplay := loadingDisplay w;
     errorMessageDisplay := errorMessageDisplay w;
     resultsContainerDisplay := resultsContainerDisplay w;
     errorTextContent := errorTextContent w;
     routeInfoHTML := routeInfoHTML w;
     trainsList := trainsList w;
     timers := timers w;
     trace := trace w |}.

(* Input validation and formatting *)
Definition sourceCode_input : M unit :=
  update (fun w =>
    set_sourceCodeValue
      (toUpperCase (removeNonLetters (sourceCodeValue w))) w).

Definition destinationCode_input : M unit :=
  update (fun w =>
    set_destinationCodeValue
      (toUpperCase (removeNonLetters (destinationCodeValue w))) w).

(* Keyboard shortcuts *)
Definition document_keydown (key : string) : M unit :=
  if String.eqb key "Escape" then hideError else ret tt.

(** The settlements of a request that send [searchTrains] to its catch
    block: a rejection, a status that is not ok, a body that does not
    parse. *)
Definition failed (o : fetch_outcome) : bool :=
  match o with
  | Rejected _ => true
  | Responded response =>
      negb (ok response) ||
      match body response with inl _ => true | inr _ => false end
  end.

(** More networks. *)
Module MoreSamples.

(** A server whose body is JSON null. *)
Definition null_server (url : string) : fetch_outcome :=
  Responded {| status := 200; statusText := "OK"; body := inr None |}.

(** A server that knows two trains. *)
Definition trips_server (url : string) : fetch_outcome :=
  Responded {| status := 200; statusText := "OK";
               body := inr (Some [Samples.rajdhani; Samples.duronto]) |}.

(** A server whose body is not JSON. *)
Definition broken_body_server (url : string) : fetch_outcome :=
  Responded {| status := 200; statusText := "OK";
               body := inl {| name := "SyntaxError";
                              message := "Unexpected token < in JSON at position 0" |} |}.

(** A server whose body breaks off, reported as a TypeError that does not
    mention fetch. *)
Definition dropped_body_server (url : string) : fetch_outcome :=
  Responded {| status := 200; statusText := "OK";
               body := inl {| name := "TypeError";
                              message := "network error" |} |}.

(** A server whose body breaks off, reported as a TypeError that mentions
    fetch. *)
Definition aborted_body_server (url : string) : fetch_outcome :=
  Responded {| status := 200; statusText := "OK";
               body := inl {| name := "TypeError";
                              message := "Failed to fetch" |} |}.

(** The no-break space U+00A0, in UTF-8. *)
Definition nbsp : string :=
  String (ascii_of_nat 194) (String (ascii_of_nat 160) EmptyString).

(** A page on which an earlier search left a reveal callback pending. *)
Definition pending_reveal : World :=
  {| sourceCodeValue := "NDLS";
     destinationCodeValue := "HWH";
     loadingDisplay := "none";
     errorMessageDisplay := "none";
     resultsContainerDisplay := "none";
     errorTextContent := EmptyString;
     routeInfoHTML := route_markup Samples.rajdhani;
     trainsList := cards [Samples.rajdhani] 0;
     timers := [(RevealResults, 100)];
     trace := [] |}.

End MoreSamples.

(** ** Facts about the two time functions *)

Lemma in_upto (n : nat) (z : Z) : 0 <= z < Z.of_nat n -> In z (upto n).
Proof.
  intros H. unfold upto. apply in_map_iff. exists (Z.to_nat z). split.
  - lia.
  - apply in_seq. lia.
Qed.

(** A property checked on every number below [n] holds of each of them. *)
Lemma checked_upto (n : nat) (p : Z -> bool) :
  forallb p (upto n) = true -> forall z, 0 <= z < Z.of_nat n -> p z = true.
Proof.
  intros H z Hz. rewrite forallb_forall in H. apply H, in_upto, Hz.
Qed.

Lemma Number_pad2 (n : Z) : 0 <= n < 100 -> Number (pad2 n) = Some n.
Proof.
  intros H.
  assert (C : forallb (fun z => match Number (pad2 z) with
                                | Some v => v =? z
                                | None => false
                                end) (upto 100) = true) by (vm_compute; reflexivity).
  pose proof (checked_upto 100 _ C n H) as E. cbv beta in E.
  destruct (Number (pad2 n)) as [v|]; [|discriminate].
  apply Z.eqb_eq in E. now subst.
Qed.

Lemma split_time_string (h m : Z) :
  0 <= h < 100 -> 0 <= m < 100 ->
  split ":" (time_string h m) = [pad2 h; pad2 m].
Proof.
  intros Hh Hm.
  assert (C : forallb (fun a => forallb (fun b =>
                same_pieces (split ":" (time_string a b)) [pad2 a; pad2 b])
                (upto 100)) (upto 100) = true) by (vm_compute; reflexivity).
  pose proof (checked_upto 100 _ C h Hh) as E. cbv beta in E.
  pose proof (checked_upto 100 _ E m Hm) as F. cbv beta in F.
  unfold same_pieces in F.
  destruct (list_eq_dec string_dec _ _) as [G|]; [exact G|discriminate].
Qed.

Lemma hoursAndMinutes_time_string (h m : Z) :
  0 <= h < 100 -> 0 <= m < 100 ->
  hoursAndMinutes (time_string h m) = Some (h, m).
Proof.
  intros Hh Hm. unfold hoursAndMinutes.
  rewrite split_time_string by assumption. cbn [map].
  now rewrite !Number_pad2 by assumption.
Qed.

(** The code's duration on two well-formed times, and its bounds. *)
Lemma durationMinutes_time_string (dh dm ah am : Z) :
  0 <= dh <= 23 -> 0 <= dm <= 59 -> 0 <= ah <= 23 -> 0 <= am <= 59 ->
  exists total,
    durationMinutes (time_string dh dm) (time_string ah am) = Some total /\
    total = (if ah * 60 + am <? dh * 60 + dm
             then ah * 60 + am + 1440 else ah * 60 + am) - (dh * 60 + dm) /\
    0 <= total <= 1439.
Proof.
  intros Hdh Hdm Hah Ham. unfold durationMinutes.
  rewrite !hoursAndMinutes_time_string by lia.
  eexists. split; [reflexivity|]. split; [reflexivity|].
  destruct (Z.ltb_spec (ah * 60 + am) (dh * 60 + dm)); lia.
Qed.

Lemma is_digit_char (c : ascii) :
  is_digit c = true -> exists n, (n < 10)%nat /\ c = ascii_of_nat (48 + n).
Proof.
  intros H. exists (nat_of_ascii c - 48)%nat.
  unfold is_digit in H. apply andb_true_iff in H. destruct H as [H1 H2].
  apply Nat.leb_le in H1. apply Nat.leb_le in H2. split; [lia|].
  replace (48 + (nat_of_ascii c - 48))%nat with (nat_of_ascii c) by lia.
  now rewrite ascii_nat_embedding.
Qed.

Lemma digit_value_range (c : ascii) :
  is_digit c = true -> 0 <= digit_value c <= 9.
Proof.
  intros H. unfold is_digit in H. apply andb_true_iff in H.
  destruct H as [H1 H2]. apply Nat.leb_le in H1. apply Nat.leb_le in H2.
  unfold digit_value. lia.
Qed.

Lemma pad2_digits (a b : ascii) :
  is_digit a = true -> is_digit b = true ->
  pad2 (10 * digit_value a + digit_value b) = String a (String b EmptyString).
Proof.
  intros Ha Hb.
  apply is_digit_char in Ha. destruct Ha as (i & Hi & ->).
  apply is_digit_char in Hb. destruct Hb as (j & Hj & ->).
  do 10 (destruct i as [|i]; [do 10 (destruct j as [|j]; [reflexivity|]); lia|]).
  lia.
Qed.

(** A well-formed time is the "HH:MM" string of the hour and the minute at
    its character positions, both in range. *)
Lemma well_formed_time_shape (s : string) :
  well_formed_time s = true ->
  0 <= hour_of s <= 23 /\ 0 <= minute_of s <= 59 /\
  s = time_string (hour_of s) (minute_of s).
Proof.
  intros H.
  destruct s as [|a [|b [|c [|d [|e [|]]]]]]; try discriminate.
  cbn [well_formed_time] in H.
  apply andb_true_iff in H. destruct H as [H Hm].
  apply andb_true_iff in H. destruct H as [H Hh].
  apply andb_true_iff in H. destruct H as [H He].
  apply andb_true_iff in H. destruct H as [H Hd].
  apply andb_true_iff in H. destruct H as [H Hc].
  apply andb_true_iff in H. destruct H as [Ha Hb].
  apply Ascii.eqb_eq in Hc. subst c.
  apply Z.leb_le in Hh. apply Z.leb_le in Hm.
  pose proof (digit_value_range a Ha). pose proof (digit_value_range b Hb).
  pose proof (digit_value_range d Hd). pose proof (digit_value_range e He).
  cbn [hour_of minute_of].
  split; [lia|]. split; [lia|].
  unfold time_string. now rewrite !pad2_digits by assumption.
Qed.

(** The well-formed times are exactly the strings [time_string h m] with
    [h] at most 23 and [m] at most 59. *)
Lemma well_formed_time_iff (s : string) :
  well_formed_time s = true <->
  exists h m, 0 <= h <= 23 /\ 0 <= m <= 59 /\ s = time_string h m.
Proof.
  split.
  - intros H. exists (hour_of s), (minute_of s).
    now apply well_formed_time_shape.
  - intros (h & m & Hh & Hm & ->).
    assert (C : forallb (fun a => forallb (fun b => well_formed_time (time_string a b))
                  (upto 60)) (upto 24) = true) by (vm_compute; reflexivity).
    pose proof (checked_upto 24 _ C h ltac:(lia)) as E. cbv beta in E.
    exact (checked_upto 60 _ E m ltac:(lia)).
Qed.

(** The minutes piece of a well-formed time is its last two characters. *)
Lemma substring_time_string (h m : Z) :
  0 <= h < 100 -> 0 <= m < 100 ->
  substring 3 2 (time_string h m) = pad2 m.
Proof. intros _ _. reflexivity. Qed.

(** C1.  On two well-formed "HH:MM" strings, calculateDuration returns
    "{hours}h {minutes}m", where total is the arrival's minutes since
    midnight (plus 1440 when they are fewer than the departure's) minus the
    departure's, hours is total div 60 and minutes is total mod 60, both
    printed without padding; "23:30" to "00:15" gives "0h 45m", "09:15" to
    "11:45" gives "2h 30m", and five minutes print as "5m". *)
Theorem calculateDuration_well_formed :
  (forall departureTime arrivalTime : string,
     well_formed_time departureTime = true ->
     well_formed_time arrivalTime = true ->
     let departureMinutes := hour_of departureTime * 60 + minute_of departureTime in
     let arrivalMinutes := hour_of arrivalTime * 60 + minute_of arrivalTime in
     let total :=
       (if arrivalMinutes <? departureMinutes
        then arrivalMinutes + 1440 else arrivalMinutes) - departureMinutes in
     calculateDuration departureTime arrivalTime =
       Some (show (total / 60) ++ "h " ++ show (total mod 60) ++ "m")) /\
  calculateDuration "23:30" "00:15" = Some "0h 45m" /\
  calculateDuration "09:15" "11:45" = Some "2h 30m" /\
  calculateDuration "09:15" "11:20" = Some "2h 5m".
Proof.
  split; [|repeat split; reflexivity].
  intros dep arr Hd Ha.
  destruct (well_formed_time_shape dep Hd) as (Hdh & Hdm & Ed).
  destruct (well_formed_time_shape arr Ha) as (Hah & Ham & Ea).
  cbv zeta. unfold calculateDuration.
  destruct (durationMinutes_time_string _ _ _ _ Hdh Hdm Hah Ham)
    as (total & E & -> & Hb).
  rewrite <- Ed, <- Ea in E. rewrite E.
  now rewrite Z.rem_mod_nonneg by lia.
Qed.

Lemma calculateDuration_well_formed_witness :
  well_formed_time "22:10" = true /\ well_formed_time "06:05" = true /\
  calculateDuration "22:10" "06:05" = Some "7h 55m".
Proof.
  split; [reflexivity|]. split; [reflexivity|].
  exact (proj1 calculateDuration_well_formed "22:10" "06:05" eq_refl eq_refl).
Defined.

(** C2.  On a well-formed 24-hour "HH:MM" string, formatTime returns
    "H:MM AM/PM": H is the hour mod 12, or 12 when that is 0; the period is
    "PM" exactly when the hour is at least 12; the minutes are the string's
    own last two characters.  "00:05" gives "12:05 AM", "12:00" gives
    "12:00 PM", "23:59" gives "11:59 PM" and "01:00" gives "1:00 AM". *)
Theorem formatTime_well_formed :
  (forall timeString : string,
     well_formed_time timeString = true ->
     let hour := hour_of timeString in
     let H := if hour mod 12 =? 0 then 12 else hour mod 12 in
     let period := if 12 <=? hour then "PM" else "AM" in
     formatTime timeString =
       Some (show H ++ ":" ++ substring 3 2 timeString ++ " " ++ period)) /\
  formatTime "00:05" = Some "12:05 AM" /\
  formatTime "12:00" = Some "12:00 PM" /\
  formatTime "23:59" = Some "11:59 PM" /\
  formatTime "01:00" = Some "1:00 AM".
Proof.
  split; [|repeat split; reflexivity].
  intros s Hs.
  destruct (well_formed_time_shape s Hs) as (Hh & Hm & E).
  cbv zeta.
  remember (hour_of s) as h eqn:Eh. remember (minute_of s) as m eqn:Em.
  clear Eh Em. subst s. rewrite substring_time_string by lia.
  unfold formatTime. rewrite split_time_string by lia.
  rewrite Number_pad2 by lia.
  now rewrite Z.rem_mod_nonneg by lia.
Qed.

Lemma formatTime_well_formed_witness :
  well_formed_time "17:08" = true /\ formatTime "17:08" = Some "5:08 PM".
Proof.
  split; [reflexivity|].
  exact (proj1 formatTime_well_formed "17:08" eq_refl).
Defined.

(** C9.  On two well-formed "HH:MM" strings the duration is bounded: the
    total of minutes is between 0 and 1439, so the hours printed are between
    0 and 23 and the minutes between 0 and 59; "24h 0m" or more never comes
    out. *)
Theorem calculateDuration_bounded (departureTime arrivalTime : string) :
  well_formed_time departureTime = true ->
  well_formed_time arrivalTime = true ->
  exists total : Z,
    durationMinutes departureTime arrivalTime = Some total /\
    0 <= total <= 1439 /\
    0 <= total / 60 <= 23 /\
    0 <= Z.rem total 60 <= 59 /\
    calculateDuration departureTime arrivalTime =
      Some (show (total / 60) ++ "h " ++ show (Z.rem total 60) ++ "m").
Proof.
  intros Hd Ha.
  destruct (well_formed_time_shape departureTime Hd) as (Hdh & Hdm & Ed).
  destruct (well_formed_time_shape arrivalTime Ha) as (Hah & Ham & Ea).
  destruct (durationMinutes_time_string _ _ _ _ Hdh Hdm Hah Ham)
    as (total & E & _ & Hb).
  rewrite <- Ed, <- Ea in E.
  exists total. split; [exact E|]. split; [exact Hb|].
  split.
  { split; [apply Z.div_pos; lia|].
    apply Z.lt_succ_r, Z.div_lt_upper_bound; lia. }
  split.
  - rewrite Z.rem_mod_nonneg by lia.
    pose proof (Z.mod_pos_bound total 60 ltac:(lia)). lia.
  - unfold calculateDuration. now rewrite E.
Qed.

Lemma calculateDuration_bounded_witness :
  exists total : Z,
    durationMinutes "00:01" "00:00" = Some total /\
    0 <= total <= 1439 /\
    0 <= total / 60 <= 23 /\
    0 <= Z.rem total 60 <= 59 /\
    calculateDuration "00:01" "00:00" =
      Some (show (total / 60) ++ "h " ++ show (Z.rem total 60) ++ "m").
Proof.
  exact (calculateDuration_bounded "00:01" "00:00" eq_refl eq_refl).
Defined.

(** ** Facts about the renderer *)

Lemma cards_length (trains : list TripResult) :
  forall index, List.length (cards trains index) = List.length trains.
Proof.
  induction trains as [|t r IH]; intros index; cbn; [reflexivity|].
  now rewrite IH.
Qed.

Lemma cards_nth_error (trains : list TripResult) :
  forall index k,
    nth_error (cards trains index) k =
    option_map (fun t => Card (createTrainCard t (index + k))) (nth_error trains k).
Proof.
  induction trains as [|t r IH]; intros index k.
  - now destruct k.
  - destruct k as [|k]; cbn.
    + now rewrite Nat.add_0_r.
    + rewrite IH. now rewrite Nat.add_succ_r.
Qed.

(** Two renderings in a row on a blank page: the second one's two cards
    are what remains. *)
Example displayResults_twice :
  map (fun n => match n with
                | Card c => (animationDelay c, isEmpty (match innerHTML c with
                                                        | Some html => html
                                                        | None => EmptyString
                                                        end))
                | Markup _ => (0%nat, true)
                end)
    (trainsList
       (exec (displayResults [Samples.duronto; Samples.rajdhani] "NDLS" "HWH")
          (exec (displayResults [Samples.rajdhani] "NDLS" "HWH") Samples.blank)))
  = [(0%nat, false); (1%nat, false)].
Proof. reflexivity. Qed.

Example rajdhani_duration :
  calculateDuration (departureTime Samples.rajdhani)
    (arrivalTime Samples.rajdhani) = Some "17h 0m".
Proof. reflexivity. Qed.

(** The loop of [displayResults] appends the cards and touches nothing
    else. *)
Lemma forEach_appendChild (trains : list TripResult) :
  forall index w,
    forEach (fun train index => appendChild (createTrainCard train index))
      trains index w =
    (Normal tt, set_trainsList (trainsList w ++ cards trains index) w).
Proof.
  induction trains as [|t r IH]; intros index w.
  - cbn. rewrite app_nil_r. now destruct w.
  - cbn [forEach cards]. unfold bind at 1. unfold appendChild at 1, update.
    rewrite IH. cbn. now rewrite <- app_assoc.
Qed.

(** What one call of the renderer leaves behind. *)
Lemma displayResults_run (trains : list TripResult) (s d : string) (w : World) :
  displayResults trains s d w =
  (Normal tt,
   record (SetTimeout 100)
     (set_timers (timers w ++ [(RevealResults, 100)])
        (set_trainsList (cards trains 0)
           (match trains with
            | firstTrain :: _ => set_routeInfoHTML (route_markup firstTrain) w
            | [] => w
            end)))).
Proof.
  unfold displayResults, bind.
  destruct trains as [|t r].
  - cbn. now destruct w.
  - unfold update at 1 2. rewrite forEach_appendChild. now destruct w.
Qed.

Lemma run_task_RevealResults (w : World) :
  run_task RevealResults w =
  (Normal tt,
   record (ScrollIntoView resultsContainer "start")
     (record (StyleDisplay resultsContainer "block")
        (set_display resultsContainer "block" w))).
Proof. reflexivity. Qed.

(** Firing the queued callbacks shows the results container (when there is
    a callback to fire) and leaves the cards and the route summary alone. *)
Lemma run_tasks_effect (l : list (task * Z)) :
  forall index w,
    let r := forEach (fun t (_ : nat) => run_task (fst t)) l index w in
    fst r = Normal tt /\
    trainsList (snd r) = trainsList w /\
    routeInfoHTML (snd r) = routeInfoHTML w /\
    resultsContainerDisplay (snd r) =
      match l with [] => resultsContainerDisplay w | _ :: _ => "block" end.
Proof.
  induction l as [|[t delay] r IH]; intros index w.
  - cbn. auto.
  - destruct t. cbv zeta.
    change (forEach (fun t (_ : nat) => run_task (fst t))
              ((RevealResults, delay) :: r) index w)
      with (forEach (fun t (_ : nat) => run_task (fst t)) r (S index)
              (record (ScrollIntoView resultsContainer "start")
                 (record (StyleDisplay resultsContainer "block")
                    (set_display resultsContainer "block" w)))).
    match goal with
    | |- context [forEach _ r _ ?w1] =>
        destruct (IH (S index) w1) as (F & T & R & D)
    end.
    split; [exact F|]. split; [rewrite T; reflexivity|].
    split; [rewrite R; reflexivity|].
    rewrite D. destruct r; reflexivity.
Qed.

(** C8.  Each call of the renderer discards the children the list of
    trains had and leaves one card per trip, in the order of the sequence:
    the child at position k is the card of the k-th trip.  So after a call
    with one sequence and then a call with another, only the cards of the
    second are present. *)
Theorem displayResults_replaces_cards :
  (forall (trains : list TripResult) (s d : string) (w : World),
     let w' := exec (displayResults trains s d) w in
     List.length (trainsList w') = List.length trains /\
     forall k, nth_error (trainsList w') k =
               option_map (fun t => Card (createTrainCard t k)) (nth_error trains k)) /\
  (forall (first second : list TripResult) (s1 d1 s2 d2 : string) (w : World),
     let w2 := exec (displayResults second s2 d2)
                 (exec (displayResults first s1 d1) w) in
     List.length (trainsList w2) = List.length second /\
     forall k, nth_error (trainsList w2) k =
               option_map (fun t => Card (createTrainCard t k)) (nth_error second k)).
Proof.
  assert (one : forall trains s d w,
             trainsList (exec (displayResults trains s d) w) = cards trains 0).
  { intros. unfold exec. now rewrite displayResults_run. }
  split; intros until w; intros after; subst after; rewrite one;
    (split; [apply cards_length | intros k; apply cards_nth_error]).
Qed.

(** C10.  On an empty sequence displayResults completes without throwing:
    the route summary keeps its previous content, the list of trains is
    emptied, and the callback that shows the results container is queued;
    once it fires the container is displayed, still with no card. *)
Theorem displayResults_empty (s d : string) (w : World) :
  let r := displayResults [] s d w in
  let shown := exec run_timers (snd r) in
  fst r = Normal tt /\
  routeInfoHTML (snd r) = routeInfoHTML w /\
  trainsList (snd r) = [] /\
  timers (snd r) = (timers w ++ [(RevealResults, 100)])%list /\
  resultsContainerDisplay shown = "block" /\
  trainsList shown = [] /\
  routeInfoHTML shown = routeInfoHTML w.
Proof.
  cbv zeta. rewrite displayResults_run. cbn [fst snd].
  repeat (split; [reflexivity|]).
  unfold exec, run_timers.
  match goal with
  | |- context [forEach ?f ?l ?i ?w0] =>
      destruct (run_tasks_effect l i w0) as (_ & T & R & D)
  end.
  rewrite T, R, D. cbn. destruct (timers w); auto.
Qed.

(** ** Facts about the search *)

Section SearchFacts.

Variable server : string -> fetch_outcome.

Lemma dispatched_trace (s d : string) (w : World) :
  trace (dispatched s d w) =
  (trace w ++ [StyleDisplay loadingElement "block";
               StyleDisplay errorMessage "none";
               StyleDisplay resultsContainer "none";
               Fetch (search_url s d)])%list.
Proof.
  cbn. now rewrite <- !app_assoc.
Qed.

(** The request is rejected: control goes to the catch block. *)
Lemma searchTrains_rejected (s d : string) (w : World) (e : Error) :
  server (search_url s d) = Rejected e ->
  searchTrains server s d w = searchTrains_catch e (dispatched s d w).
Proof.
  intros H. unfold searchTrains, try_catch, bind, fetch, bind.
  cbv zeta. rewrite H. cbn. reflexivity.
Qed.

(** The response is not ok: the thrown error reaches the catch block. *)
Lemma searchTrains_not_ok (s d : string) (w : World) (r : Response) :
  server (search_url s d) = Responded r -> ok r = false ->
  searchTrains server s d w =
  searchTrains_catch (http_error r) (dispatched s d w).
Proof.
  intros H K. unfold searchTrains, try_catch, bind, fetch, bind.
  cbv zeta. rewrite H. cbn. rewrite K. reflexivity.
Qed.

(** The body does not parse: the rejection reaches the catch block. *)
Lemma searchTrains_bad_body (s d : string) (w : World) (r : Response)
    (e : Error) :
  server (search_url s d) = Responded r -> ok r = true -> body r = inl e ->
  searchTrains server s d w = searchTrains_catch e (dispatched s d w).
Proof.
  intros H K B. unfold searchTrains, try_catch, bind, fetch, json, bind.
  cbv zeta. rewrite H. cbn. rewrite K, B. reflexivity.
Qed.

(** No data: the loading indicator is hidden and the empty state shown. *)
Lemma searchTrains_no_data (s d : string) (w : World) (r : Response)
    (data : option (list TripResult)) :
  server (search_url s d) = Responded r -> ok r = true ->
  body r = inr data -> no_data data = true ->
  searchTrains server s d w =
  showNoResults s d (exec hideLoading (dispatched s d w)).
Proof.
  intros H K B N. unfold searchTrains, try_catch, bind, fetch, json, bind.
  cbv zeta. rewrite H. cbn. rewrite K, B. cbn. rewrite N. reflexivity.
Qed.

(** Some trips: the loading indicator is hidden and the trips rendered. *)
Lemma searchTrains_trips (s d : string) (w : World) (r : Response)
    (t : TripResult) (rest : list TripResult) :
  server (search_url s d) = Responded r -> ok r = true ->
  body r = inr (Some (t :: rest)) ->
  searchTrains server s d w =
  displayResults (t :: rest) s d (exec hideLoading (dispatched s d w)).
Proof.
  intros H K B. unfold searchTrains, try_catch, bind, fetch, json, bind.
  cbv zeta. rewrite H. cbn -[displayResults]. rewrite K, B.
  cbn -[displayResults]. rewrite !displayResults_run. reflexivity.
Qed.

(** What the catch block leaves behind. *)
Lemma searchTrains_catch_run (e : Error) (w : World) :
  searchTrains_catch e w =
  (Normal tt,
   record (ScrollIntoView errorMessage "center")
     (record (StyleDisplay errorMessage "block")
        (set_display errorMessage "block"
           (set_errorTextContent
              (if String.eqb (name e) "TypeError" && includes (message e) "fetch"
               then connectivity_message
               else "Search failed: " ++ message e)
              (record (ConsoleError "Search error:" e)
                 (record (StyleDisplay loadingElement "none")
                    (set_display loadingElement "none" w))))))).
Proof.
  unfold searchTrains_catch, bind.
  destruct (String.eqb (name e) "TypeError" && includes (message e) "fetch");
    reflexivity.
Qed.

Lemma requests_app (a b : list event) :
  requests (a ++ b) = (requests a ++ requests b)%list.
Proof.
  induction a as [|e a IH]; [reflexivity|].
  destruct e; cbn; now rewrite IH.
Qed.

(** Every run of the search: it completes normally; its trace is the three
    panel updates, the request, and then events among which the loading
    indicator is hidden and never shown again, and no further request. *)
Lemma searchTrains_paths (s d : string) (w : World) :
  let r := searchTrains server s d w in
  fst r = Normal tt /\
  loadingDisplay (snd r) = "none" /\
  exists post,
    trace (snd r) = (trace (dispatched s d w) ++ post)%list /\
    In (StyleDisplay loadingElement "none") post /\
    ~ In (StyleDisplay loadingElement "block") post /\
    requests post = [].
Proof.
  cbv zeta.
  destruct (server (search_url s d)) as [e|r] eqn:H.
  - rewrite (searchTrains_rejected s d w e H), searchTrains_catch_run.
    split; [reflexivity|]. split; [reflexivity|].
    eexists. split; [cbn -[dispatched]; rewrite <- !app_assoc; reflexivity|].
    cbn. intuition discriminate.
  - destruct (ok r) eqn:K.
    + destruct (body r) as [e|data] eqn:B.
      * rewrite (searchTrains_bad_body s d w r e H K B), searchTrains_catch_run.
        split; [reflexivity|]. split; [reflexivity|].
        eexists. split; [cbn -[dispatched]; rewrite <- !app_assoc; reflexivity|].
        cbn. intuition discriminate.
      * destruct (no_data data) eqn:N.
        -- rewrite (searchTrains_no_data s d w r data H K B N).
           split; [reflexivity|]. split; [reflexivity|].
           eexists. split; [cbn -[dispatched]; rewrite <- !app_assoc; reflexivity|].
           cbn. intuition discriminate.
        -- destruct data as [[|t rest]|]; try discriminate.
           rewrite (searchTrains_trips s d w r t rest H K B), displayResults_run.
           split; [reflexivity|]. split; [reflexivity|].
           eexists. split; [cbn -[dispatched]; rewrite <- !app_assoc; reflexivity|].
           cbn. intuition discriminate.
    + rewrite (searchTrains_not_ok s d w r H K), searchTrains_catch_run.
      split; [reflexivity|]. split; [reflexivity|].
      eexists. split; [cbn -[dispatched]; rewrite <- !app_assoc; reflexivity|].
      cbn. intuition discriminate.
Qed.

End SearchFacts.

(** ** The search and the submit handler *)

(** C7.  Every run of the search completes, on every path (trips, no data,
    an HTTP error status, a rejected request, an unreadable body): the
    loading indicator is shown before the request is issued, and after the
    request it is hidden and never shown again, so the run ends with the
    indicator hidden. *)
Theorem searchTrains_loading_cleared
    (server : string -> fetch_outcome) (s d : string) (w : World) :
  let r := searchTrains server s d w in
  fst r = Normal tt /\
  loadingDisplay (dispatched s d w) = "block" /\
  loadingDisplay (snd r) = "none" /\
  exists post,
    trace (snd r) =
      (trace w ++ [StyleDisplay loadingElement "block";
                   StyleDisplay errorMessage "none";
                   StyleDisplay resultsContainer "none";
                   Fetch (search_url s d)] ++ post)%list /\
    In (StyleDisplay loadingElement "none") post /\
    ~ In (StyleDisplay loadingElement "block") post.
Proof.
  destruct (searchTrains_paths server s d w) as (F & L & post & T & I & N & _).
  cbv zeta. split; [exact F|]. split; [reflexivity|]. split; [exact L|].
  exists post. rewrite T, dispatched_trace, <- app_assoc. auto.
Qed.

(** C4.  A successful response whose body is an empty sequence ends in the
    empty state: the search completes without throwing, the list of trains
    holds the "no trains found" panel and no card, the route summary names
    the two codes, the results container is displayed at once, no error is
    shown and the loading indicator is hidden. *)
Theorem searchTrains_empty_response
    (server : string -> fetch_outcome) (s d : string) (w : World)
    (response : Response) :
  server (search_url s d) = Responded response ->
  ok response = true ->
  body response = inr (Some []) ->
  let r := searchTrains server s d w in
  fst r = Normal tt /\
  trainsList (snd r) = [Markup (no_results_markup s d)] /\
  includes (no_results_markup s d) "No Trains Found" = true /\
  existsb is_card (trainsList (snd r)) = false /\
  routeInfoHTML (snd r) = s ++ " â†’ " ++ d /\
  resultsContainerDisplay (snd r) = "block" /\
  errorMessageDisplay (snd r) = "none" /\
  loadingDisplay (snd r) = "none" /\
  timers (snd r) = timers w.
Proof.
  intros H K B. cbv zeta.
  rewrite (searchTrains_no_data server s d w response (Some []) H K B eq_refl).
  repeat split; reflexivity.
Qed.

Lemma searchTrains_empty_response_witness :
  let r := searchTrains Samples.empty_server "NDLS" "HWH" Samples.blank in
  fst r = Normal tt /\
  trainsList (snd r) = [Markup (no_results_markup "NDLS" "HWH")] /\
  includes (no_results_markup "NDLS" "HWH") "No Trains Found" = true /\
  existsb is_card (trainsList (snd r)) = false /\
  routeInfoHTML (snd r) = "NDLS" ++ " â†’ " ++ "HWH" /\
  resultsContainerDisplay (snd r) = "block" /\
  errorMessageDisplay (snd r) = "none" /\
  loadingDisplay (snd r) = "none" /\
  timers (snd r) = timers Samples.blank.
Proof.
  exact (searchTrains_empty_response Samples.empty_server "NDLS" "HWH"
           Samples.blank _ eq_refl eq_refl eq_refl).
Defined.

(** C5.  A response whose status is not a success status is turned into the
    error "HTTP <status>: <statusText>": that error is thrown, logged, and
    shown to the user as "Search failed: HTTP <status>: <statusText>", with
    the status in decimal and the status text as received. *)
Theorem searchTrains_http_error
    (server : string -> fetch_outcome) (s d : string) (w : World)
    (response : Response) :
  server (search_url s d) = Responded response ->
  ok response = false ->
  let w' := exec (searchTrains server s d) w in
  searchTrains server s d w =
    searchTrains_catch
      {| name := "Error";
         message := "HTTP " ++ show (status response) ++ ": " ++
                    statusText response |}
      (dispatched s d w) /\
  errorTextContent w' =
    "Search failed: HTTP " ++ show (status response) ++ ": " ++
    statusText response /\
  errorMessageDisplay w' = "block" /\
  In (ConsoleError "Search error:"
        {| name := "Error";
           message := "HTTP " ++ show (status response) ++ ": " ++
                      statusText response |}) (trace w') /\
  trainsList w' = trainsList w.
Proof.
  intros H K. cbv zeta. unfold exec.
  rewrite (searchTrains_not_ok server s d w response H K).
  split; [reflexivity|].
  rewrite searchTrains_catch_run.
  split; [reflexivity|]. split; [reflexivity|]. split; [|reflexivity].
  cbn -[dispatched]. rewrite !in_app_iff. cbn. intuition.
Qed.

Lemma searchTrains_http_error_witness :
  errorTextContent
    (exec (searchTrains Samples.missing_server "NDLS" "HWH") Samples.blank) =
  "Search failed: HTTP 404: Not Found".
Proof.
  exact (proj1 (proj2 (searchTrains_http_error Samples.missing_server
                         "NDLS" "HWH" Samples.blank _ eq_refl eq_refl))).
Defined.

(** C6, as the claim states it, fails: a request rejected with a TypeError
    whose message does not contain "fetch" (Safari's "Load failed") is
    shown as "Search failed: Load failed", not as the connectivity
    message. *)
Lemma searchTrains_unreachable_without_fetch_word :
  let w' := exec (searchTrains Samples.unreachable_safari "NDLS" "HWH")
              Samples.blank in
  Samples.unreachable_safari (search_url "NDLS" "HWH") =
    Rejected {| name := "TypeError"; message := "Load failed" |} /\
  errorTextContent w' = "Search failed: Load failed" /\
  errorTextContent w' <> connectivity_message.
Proof.
  cbv zeta. split; [reflexivity|]. split; [reflexivity|].
  vm_compute. discriminate.
Qed.

(** C6, amended.  A request rejected with a TypeError whose message
    contains "fetch" is shown as the connectivity message, which advises
    checking that the API is running and differs from every message shown
    for an HTTP error status. *)
Theorem searchTrains_unreachable
    (server : string -> fetch_outcome) (s d : string) (w : World)
    (e : Error) :
  server (search_url s d) = Rejected e ->
  name e = "TypeError" ->
  includes (message e) "fetch" = true ->
  let w' := exec (searchTrains server s d) w in
  errorTextContent w' = connectivity_message /\
  errorMessageDisplay w' = "block" /\
  includes connectivity_message "Please check if the API is running" = true /\
  forall text : string, connectivity_message <> "Search failed: " ++ text.
Proof.
  intros H N I. cbv zeta. unfold exec.
  rewrite (searchTrains_rejected server s d w e H), searchTrains_catch_run.
  rewrite N, I. repeat split; try reflexivity.
  intros text. cbn. discriminate.
Qed.

Lemma searchTrains_unreachable_witness :
  errorTextContent
    (exec (searchTrains Samples.unreachable_chrome "NDLS" "HWH") Samples.blank) =
  connectivity_message.
Proof.
  exact (proj1 (searchTrains_unreachable Samples.unreachable_chrome
                  "NDLS" "HWH" Samples.blank _ eq_refl eq_refl eq_refl)).
Defined.

(** C3.  With the two field values trimmed and upper-cased: when either is
    empty or the two are equal, the submit handler issues no request and
    shows a validation message; when both are non-empty and distinct it
    runs the search on the two codes, which issues exactly one request. *)
Theorem searchForm_submit_validation
    (server : string -> fetch_outcome) (w : World) :
  let sourceCode := toUpperCase (trim (sourceCodeValue w)) in
  let destinationCode := toUpperCase (trim (destinationCodeValue w)) in
  let w' := exec (searchForm_submit server) w in
  (sourceCode = EmptyString \/ destinationCode = EmptyString \/
   sourceCode = destinationCode ->
   requests (trace w') = requests (trace w) /\
   errorMessageDisplay w' = "block" /\
   (errorTextContent w' =
      "Please enter both source and destination station codes." \/
    errorTextContent w' =
      "Source and destination stations cannot be the same.")) /\
  (sourceCode <> EmptyString -> destinationCode <> EmptyString ->
   sourceCode <> destinationCode ->
   searchForm_submit server w =
     searchTrains server sourceCode destinationCode (record PreventDefault w) /\
   requests (trace w') =
     (requests (trace w) ++ [search_url sourceCode destinationCode])%list).
Proof.
  cbv zeta. unfold exec, searchForm_submit, bind, update.
  set (sourceCode := toUpperCase (trim (sourceCodeValue w))).
  set (destinationCode := toUpperCase (trim (destinationCodeValue w))).
  change (sourceCodeValue (record PreventDefault w)) with (sourceCodeValue w).
  change (destinationCodeValue (record PreventDefault w))
    with (destinationCodeValue w).
  fold sourceCode destinationCode.
  assert (quiet : forall text,
            let v := snd (showError text (record PreventDefault w)) in
            requests (trace v) = requests (trace w) /\
            errorMessageDisplay v = "block" /\ errorTextContent v = text).
  { intros text. cbn. rewrite <- !app_assoc, requests_app. cbn.
    now rewrite app_nil_r. }
  split.
  - intros Hbad.
    destruct (isEmpty sourceCode || isEmpty destinationCode) eqn:E.
    + destruct (quiet "Please enter both source and destination station codes.")
        as (R & D & T). auto.
    + destruct (String.eqb_spec sourceCode destinationCode) as [Q|Q].
      * destruct (quiet "Source and destination stations cannot be the same.")
          as (R & D & T). auto.
      * exfalso. apply orb_false_iff in E. destruct E as [E1 E2].
        destruct Hbad as [K|[K|K]]; [| |contradiction];
          rewrite K in *; discriminate.
  - intros Hs Hd Hne.
    assert (E : isEmpty sourceCode || isEmpty destinationCode = false).
    { destruct sourceCode; [contradiction|].
      destruct destinationCode; [contradiction|reflexivity]. }
    rewrite E.
    destruct (String.eqb_spec sourceCode destinationCode) as [Q|_];
      [contradiction|].
    split; [reflexivity|].
    destruct (searchTrains_paths server sourceCode destinationCode
                (record PreventDefault w)) as (_ & _ & post & T & _ & _ & P).
    rewrite T, dispatched_trace, !requests_app, P. cbn.
    rewrite requests_app. cbn. now rewrite !app_nil_r.
Qed.

Lemma searchForm_submit_validation_witness :
  (let w := Samples.typed " ndls " "NDLS" in
   let w' := exec (searchForm_submit Samples.empty_server) w in
   requests (trace w') = requests (trace w) /\
   errorMessageDisplay w' = "block" /\
   (errorTextContent w' =
      "Please enter both source and destination station codes." \/
    errorTextContent w' =
      "Source and destination stations cannot be the same.")) /\
  (let w := Samples.typed " ndls " "hwh" in
   let w' := exec (searchForm_submit Samples.empty_server) w in
   searchForm_submit Samples.empty_server w =
     searchTrains Samples.empty_server "NDLS" "HWH" (record PreventDefault w) /\
   requests (trace w') =
     (requests (trace w) ++ [search_url "NDLS" "HWH"])%list).
Proof.
  split.
  - exact (proj1 (searchForm_submit_validation Samples.empty_server
                    (Samples.typed " ndls " "NDLS"))
             (or_intror (or_intror eq_refl))).
  - apply (proj2 (searchForm_submit_validation Samples.empty_server
                    (Samples.typed " ndls " "hwh"))); discriminate.
Defined.


(** The handler's normalisation outside ASCII: a field holding only a
    no-break space counts as empty, and two fields that differ in the case
    of an accented letter count as the same station. *)
Example submit_no_break_space :
  let w' := exec (searchForm_submit Samples.empty_server)
              (Samples.typed MoreSamples.nbsp "HWH") in
  trim MoreSamples.nbsp = EmptyString /\
  requests (trace w') = [] /\
  errorTextContent w' =
    "Please enter both source and destination station codes.".
Proof. repeat split; reflexivity. Qed.

Example submit_accented_case :
  let w' := exec (searchForm_submit Samples.empty_server)
              (Samples.typed "é" "É") in
  toUpperCase "é" = "É" /\
  requests (trace w') = [] /\
  errorTextContent w' =
    "Source and destination stations cannot be the same.".
Proof. repeat split; reflexivity. Qed.

Example toUpperCase_samples :
  toUpperCase "straße" = "STRASSE" /\ toUpperCase "ﬁn" = "FIN" /\
  toUpperCase "ndls" = "NDLS" /\ toUpperCase "Łódź 12" = "ŁÓDŹ 12".
Proof. repeat split; reflexivity. Qed.

Example trim_samples :
  trim (MoreSamples.nbsp ++ " ndls" ++ MoreSamples.nbsp ++ " ") = "ndls" /\
  trim "a b" = "a b" /\ trim "   " = EmptyString /\
  trim ("a" ++ MoreSamples.nbsp ++ "b") = "a" ++ MoreSamples.nbsp ++ "b".
Proof. repeat split; reflexivity. Qed.

(** ** More about the duration calculator and the time formatter *)

Lemma minutes_of_day_inj (a b : string) :
  well_formed_time a = true -> well_formed_time b = true ->
  minutes_of_day a = minutes_of_day b -> a = b.
Proof.
  intros Ha Hb E. unfold minutes_of_day in E.
  destruct (well_formed_time_shape a Ha) as (A1 & A2 & Ea).
  destruct (well_formed_time_shape b Hb) as (B1 & B2 & Eb).
  assert (K : hour_of a = hour_of b /\ minute_of a = minute_of b) by lia.
  destruct K as [K1 K2]. rewrite Ea, Eb. now rewrite K1, K2.
Qed.

Lemma minutes_of_day_range (a : string) :
  well_formed_time a = true -> 0 <= minutes_of_day a <= 1439.
Proof.
  intros Ha. unfold minutes_of_day.
  destruct (well_formed_time_shape a Ha) as (A1 & A2 & _). lia.
Qed.

(** The code's duration on two well-formed times, in minutes of the day. *)
Lemma durationMinutes_well_formed (a b : string) :
  well_formed_time a = true -> well_formed_time b = true ->
  durationMinutes a b =
  Some ((if minutes_of_day b <? minutes_of_day a
         then minutes_of_day b + 1440 else minutes_of_day b) - minutes_of_day a).
Proof.
  intros Ha Hb. unfold minutes_of_day.
  destruct (well_formed_time_shape a Ha) as (A1 & A2 & Ea).
  destruct (well_formed_time_shape b Hb) as (B1 & B2 & Eb).
  destruct (durationMinutes_time_string _ _ _ _ A1 A2 B1 B2) as (t & E & -> & _).
  now rewrite <- Ea, <- Eb in E.
Qed.

(** X1.  For two well-formed times the journey there and the journey back
    add up to a whole day, 1440 minutes, when the times differ; when they
    are the same both are 0 and the duration reads "0h 0m", not a day. *)
Theorem durationMinutes_there_and_back (a b : string) :
  well_formed_time a = true -> well_formed_time b = true ->
  exists x y : Z,
    durationMinutes a b = Some x /\ durationMinutes b a = Some y /\
    (a <> b -> x + y = 1440) /\
    (a = b -> x = 0 /\ y = 0 /\ calculateDuration a b = Some "0h 0m").
Proof.
  intros Ha Hb.
  pose proof (minutes_of_day_range a Ha). pose proof (minutes_of_day_range b Hb).
  rewrite (durationMinutes_well_formed a b Ha Hb),
          (durationMinutes_well_formed b a Hb Ha).
  do 2 eexists. split; [reflexivity|]. split; [reflexivity|]. split.
  - intros Hne.
    assert (minutes_of_day a <> minutes_of_day b)
      by (intros E; apply Hne, minutes_of_day_inj; assumption).
    destruct (Z.ltb_spec (minutes_of_day b) (minutes_of_day a));
      destruct (Z.ltb_spec (minutes_of_day a) (minutes_of_day b)); lia.
  - intros ->. rewrite Z.ltb_irrefl.
    split; [lia|]. split; [lia|].
    unfold calculateDuration.
    rewrite (durationMinutes_well_formed b b Hb Hb), Z.ltb_irrefl.
    now rewrite Z.sub_diag.
Qed.

Lemma durationMinutes_there_and_back_witness :
  exists x y : Z,
    durationMinutes "23:30" "00:15" = Some x /\
    durationMinutes "00:15" "23:30" = Some y /\
    ("23:30" <> "00:15" -> x + y = 1440) /\
    ("23:30" = "00:15" ->
     x = 0 /\ y = 0 /\ calculateDuration "23:30" "00:15" = Some "0h 0m").
Proof.
  exact (durationMinutes_there_and_back "23:30" "00:15" eq_refl eq_refl).
Defined.

(** X2.  Durations chain around the clock: for three well-formed times,
    the duration from the first to the third is the sum of the two legs
    modulo 1440 minutes. *)
Theorem durationMinutes_chain (a b c : string) :
  well_formed_time a = true -> well_formed_time b = true ->
  well_formed_time c = true ->
  exists x y z : Z,
    durationMinutes a b = Some x /\ durationMinutes b c = Some y /\
    durationMinutes a c = Some z /\ z = (x + y) mod 1440.
Proof.
  intros Ha Hb Hc.
  pose proof (minutes_of_day_range a Ha). pose proof (minutes_of_day_range b Hb).
  pose proof (minutes_of_day_range c Hc).
  rewrite (durationMinutes_well_formed a b Ha Hb),
          (durationMinutes_well_formed b c Hb Hc),
          (durationMinutes_well_formed a c Ha Hc).
  do 3 eexists. repeat (split; [reflexivity|]).
  destruct (Z.ltb_spec (minutes_of_day b) (minutes_of_day a));
    destruct (Z.ltb_spec (minutes_of_day c) (minutes_of_day b));
    destruct (Z.ltb_spec (minutes_of_day c) (minutes_of_day a));
    try lia;
    first [ apply Z.mod_unique with (q := 0); lia
          | apply Z.mod_unique with (q := 1); lia ].
Qed.

Lemma durationMinutes_chain_witness :
  exists x y z : Z,
    durationMinutes "22:00" "23:30" = Some x /\
    durationMinutes "23:30" "06:10" = Some y /\
    durationMinutes "22:00" "06:10" = Some z /\ z = (x + y) mod 1440.
Proof.
  exact (durationMinutes_chain "22:00" "23:30" "06:10" eq_refl eq_refl eq_refl).
Defined.

(** X3.  The calculator does not check the ranges of its fields.  With
    two-digit fields from 00 to 99 it still computes arrival minus
    departure and adds one day, and only one, when that is negative: the
    result is negative exactly when the departure lies more than 1440
    minutes after the arrival. *)
Theorem durationMinutes_unchecked_fields (dh dm ah am : Z) :
  0 <= dh < 100 -> 0 <= dm < 100 -> 0 <= ah < 100 -> 0 <= am < 100 ->
  exists total : Z,
    durationMinutes (time_string dh dm) (time_string ah am) = Some total /\
    total = (if ah * 60 + am <? dh * 60 + dm
             then ah * 60 + am + 1440 else ah * 60 + am) - (dh * 60 + dm) /\
    (total < 0 <-> 1440 < (dh * 60 + dm) - (ah * 60 + am)) /\
    calculateDuration (time_string dh dm) (time_string ah am) =
      Some (show (total / 60) ++ "h " ++ show (Z.rem total 60) ++ "m").
Proof.
  intros Hdh Hdm Hah Ham. unfold calculateDuration, durationMinutes.
  rewrite !hoursAndMinutes_time_string by assumption.
  eexists. split; [reflexivity|]. split; [reflexivity|]. split; [|reflexivity].
  destruct (Z.ltb_spec (ah * 60 + am) (dh * 60 + dm)); lia.
Qed.

Lemma durationMinutes_unchecked_fields_witness :
  exists total : Z,
    durationMinutes "99:00" "00:01" = Some total /\
    total = (if 0 * 60 + 1 <? 99 * 60 + 0
             then 0 * 60 + 1 + 1440 else 0 * 60 + 1) - (99 * 60 + 0) /\
    (total < 0 <-> 1440 < (99 * 60 + 0) - (0 * 60 + 1)) /\
    calculateDuration "99:00" "00:01" =
      Some (show (total / 60) ++ "h " ++ show (Z.rem total 60) ++ "m").
Proof.
  apply (durationMinutes_unchecked_fields 99 0 0 1); lia.
Defined.

Example negative_duration :
  calculateDuration "99:00" "00:01" = Some "-75h -59m".
Proof. reflexivity. Qed.

Lemma digit_not_colon (c : ascii) :
  is_digit c = true -> Ascii.eqb c ":" = false.
Proof.
  intros H. destruct (Ascii.eqb_spec c ":") as [->|]; [discriminate|reflexivity].
Qed.

(** The pieces of a well-formed time, alone or followed by a colon and
    anything else. *)
Lemma split_well_formed (t : string) :
  well_formed_time t = true ->
  split ":" t = [substring 0 2 t; substring 3 2 t] /\
  forall tail : string,
    split ":" (t ++ String ":" tail) =
    substring 0 2 t :: substring 3 2 t :: split ":" tail.
Proof.
  intros H.
  destruct t as [|a [|b [|c [|d [|e [|]]]]]]; try discriminate.
  cbn [well_formed_time] in H.
  apply andb_true_iff in H. destruct H as [H _].
  apply andb_true_iff in H. destruct H as [H _].
  apply andb_true_iff in H. destruct H as [H He].
  apply andb_true_iff in H. destruct H as [H Hd].
  apply andb_true_iff in H. destruct H as [H Hc].
  apply andb_true_iff in H. destruct H as [Ha Hb].
  apply Ascii.eqb_eq in Hc. subst c.
  apply digit_not_colon in Ha, Hb, Hd, He.
  split; [|intros tail]; cbn [append split substring];
    rewrite Ha, Hb, Hd, He; reflexivity.
Qed.

Lemma formatTime_round_trip (h m : Z) :
  0 <= h <= 23 -> 0 <= m <= 59 ->
  match formatTime (time_string h m) with
  | Some s => to24h s = Some (time_string h m)
  | None => False
  end.
Proof.
  intros Hh Hm.
  assert (C : forallb (fun a => forallb (fun b =>
                match formatTime (time_string a b) with
                | Some s => match to24h s with
                            | Some t => String.eqb t (time_string a b)
                            | None => false
                            end
                | None => false
                end) (upto 60)) (upto 24) = true) by (vm_compute; reflexivity).
  pose proof (checked_upto 24 _ C h ltac:(lia)) as E. cbv beta in E.
  pose proof (checked_upto 60 _ E m ltac:(lia)) as F. cbv beta in F.
  destruct (formatTime (time_string h m)) as [s|]; [|discriminate].
  destruct (to24h s) as [t|]; [|discriminate].
  apply String.eqb_eq in F. now subst.
Qed.

(** X4.  Formatting loses nothing: two different well-formed 24-hour times
    never get the same 12-hour string. *)
Theorem formatTime_injective (a b : string) :
  well_formed_time a = true -> well_formed_time b = true ->
  a <> b -> formatTime a <> formatTime b.
Proof.
  intros Ha Hb Hne E. apply Hne.
  destruct (well_formed_time_shape a Ha) as (A1 & A2 & Ea).
  destruct (well_formed_time_shape b Hb) as (B1 & B2 & Eb).
  pose proof (formatTime_round_trip _ _ A1 A2) as Ra.
  pose proof (formatTime_round_trip _ _ B1 B2) as Rb.
  rewrite <- Ea in Ra. rewrite <- Eb in Rb. rewrite <- E in Rb.
  destruct (formatTime a) as [s|]; [|contradiction].
  rewrite Ra in Rb. now injection Rb.
Qed.

Lemma formatTime_injective_witness :
  formatTime "01:00" <> formatTime "13:00".
Proof.
  apply (formatTime_injective "01:00" "13:00");
    [reflexivity | reflexivity | discriminate].
Defined.

Lemma split_without_separator (sep : ascii) (s : string) :
  all_chars (fun c => negb (Ascii.eqb c sep)) s = true -> split sep s = [s].
Proof.
  induction s as [|c r IH]; intros H; [reflexivity|].
  cbn [all_chars] in H. apply andb_true_iff in H. destruct H as [Hc Hr].
  apply negb_true_iff in Hc. cbn [split]. rewrite Hc, (IH Hr). reflexivity.
Qed.

Lemma all_digits_no_colon (s : string) :
  all_digits s = true ->
  all_chars (fun c => negb (Ascii.eqb c ":")) s = true.
Proof.
  induction s as [|c r IH]; intros H; [reflexivity|].
  cbn [all_digits] in H. apply andb_true_iff in H. destruct H as [Hc Hr].
  cbn [all_chars]. now rewrite (digit_not_colon c Hc), (IH Hr).
Qed.

Lemma decimal_from_nonneg (s : string) :
  forall acc, 0 <= acc -> all_digits s = true -> 0 <= decimal_from acc s.
Proof.
  induction s as [|c r IH]; intros acc Hacc H; [exact Hacc|].
  cbn [all_digits] in H. apply andb_true_iff in H. destruct H as [Hc Hr].
  cbn [decimal_from]. apply IH; [|exact Hr].
  pose proof (digit_value_range c Hc). lia.
Qed.

(** X5.  A time without a colon has no minutes piece: when the whole string
    is a number [h] the formatter prints the word "undefined" where the
    minutes belong. *)
Theorem formatTime_without_colon (s : string) (h : Z) :
  Number s = Some h ->
  formatTime s =
  Some (show (if h mod 12 =? 0 then 12 else h mod 12) ++ ":undefined " ++
        (if 12 <=? h then "PM" else "AM")).
Proof.
  intros N. unfold formatTime.
  assert (D : all_digits s = true /\ 0 <= h).
  { unfold Number in N.
    destruct (all_digits s) eqn:A; [|discriminate].
    destruct (String.length s <=? 9)%nat; [|discriminate].
    cbn in N. injection N as <-. split; [reflexivity|].
    now apply decimal_from_nonneg. }
  destruct D as [A Hh].
  rewrite (split_without_separator ":" s (all_digits_no_colon s A)), N.
  now rewrite Z.rem_mod_nonneg by lia.
Qed.

Lemma formatTime_without_colon_witness :
  formatTime "1430" = Some "2:undefined PM".
Proof.
  exact (formatTime_without_colon "1430" 1430 eq_refl).
Defined.

(** X6.  Only the first two pieces of a time are read: whatever follows a
    well-formed time and a further colon (seconds, say) changes neither its
    12-hour form nor a duration computed from it. *)
Theorem seconds_are_ignored (a b x y : string) :
  well_formed_time a = true -> well_formed_time b = true ->
  formatTime (a ++ ":" ++ x) = formatTime a /\
  calculateDuration (a ++ ":" ++ x) (b ++ ":" ++ y) = calculateDuration a b.
Proof.
  intros Ha Hb.
  destruct (split_well_formed a Ha) as (Sa & Ta).
  destruct (split_well_formed b Hb) as (Sb & Tb).
  change (":" ++ x) with (String ":" x). change (":" ++ y) with (String ":" y).
  split.
  - unfold formatTime. now rewrite Sa, Ta.
  - unfold calculateDuration, durationMinutes, hoursAndMinutes.
    now rewrite Sa, Sb, Ta, Tb.
Qed.

Lemma seconds_are_ignored_witness :
  formatTime ("16:55" ++ ":" ++ "30") = formatTime "16:55" /\
  calculateDuration ("16:55" ++ ":" ++ "30") ("09:55" ++ ":" ++ "00") =
    calculateDuration "16:55" "09:55".
Proof.
  exact (seconds_are_ignored "16:55" "09:55" "30" "00" eq_refl eq_refl).
Defined.

(** ** The search URL and the input filters *)

Lemma all_chars_impl (p q : ascii -> bool) (s : string) :
  (forall c, p c = true -> q c = true) ->
  all_chars p s = true -> all_chars q s = true.
Proof.
  intros I. induction s as [|c r IH]; intros H; [reflexivity|].
  cbn [all_chars] in *. apply andb_true_iff in H. destruct H as [Hc Hr].
  now rewrite (I c Hc), (IH Hr).
Qed.

Lemma hex_digit_unreserved (n : nat) :
  (n < 16)%nat -> is_unreserved (hex_digit n) = true.
Proof.
  intros H. do 16 (destruct n as [|n]; [reflexivity|]). lia.
Qed.

Lemma hex_digit_inj (a b : nat) :
  (a < 16)%nat -> (b < 16)%nat -> hex_digit a = hex_digit b -> a = b.
Proof.
  intros Ha Hb E. apply (f_equal nat_of_ascii) in E. unfold hex_digit in E.
  destruct (Nat.ltb_spec a 10); destruct (Nat.ltb_spec b 10);
    rewrite !nat_ascii_embedding in E by lia; lia.
Qed.

Lemma byte_halves (c : ascii) :
  (nat_of_ascii c / 16 < 16)%nat /\ (nat_of_ascii c mod 16 < 16)%nat.
Proof.
  pose proof (nat_ascii_bounded c). split.
  - apply Nat.Div0.div_lt_upper_bound. lia.
  - apply Nat.mod_upper_bound. lia.
Qed.

Lemma encodeURIComponent_chars (s : string) :
  all_chars (fun c => is_unreserved c || Ascii.eqb c "%")
    (encodeURIComponent s) = true.
Proof.
  induction s as [|c r IH]; [reflexivity|].
  cbn [encodeURIComponent]. destruct (is_unreserved c) eqn:U.
  - cbn [all_chars]. now rewrite U, IH.
  - destruct (byte_halves c) as [Hq Hr].
    cbn [all_chars].
    rewrite (hex_digit_unreserved _ Hq), (hex_digit_unreserved _ Hr), IH.
    reflexivity.
Qed.

Lemma encodeURIComponent_inj (s : string) :
  forall s', encodeURIComponent s = encodeURIComponent s' -> s = s'.
Proof.
  induction s as [|c r IH]; intros [|c' r'] E; cbn [encodeURIComponent] in E.
  - reflexivity.
  - destruct (is_unreserved c'); discriminate.
  - destruct (is_unreserved c); discriminate.
  - destruct (is_unreserved c) eqn:U; destruct (is_unreserved c') eqn:U'.
    + injection E as -> E. now rewrite (IH _ E).
    + injection E as -> E. discriminate.
    + injection E as <- E. discriminate.
    + injection E as Eq Er E.
      destruct (byte_halves c) as [Hq Hr]. destruct (byte_halves c') as [Hq' Hr'].
      apply hex_digit_inj in Eq; [|assumption..].
      apply hex_digit_inj in Er; [|assumption..].
      assert (N : nat_of_ascii c = nat_of_ascii c').
      { pose proof (Nat.div_mod_eq (nat_of_ascii c) 16) as D.
        pose proof (Nat.div_mod_eq (nat_of_ascii c') 16) as D'.
        assert (Eq' : (nat_of_ascii c / 16 = nat_of_ascii c' / 16)%nat)
          by exact Eq.
        assert (Er' : (nat_of_ascii c mod 16 = nat_of_ascii c' mod 16)%nat)
          by exact Er.
        rewrite Eq', Er' in D. congruence. }
      apply (f_equal ascii_of_nat) in N. rewrite !ascii_nat_embedding in N.
      subst c'. now rewrite (IH _ E).
Qed.

Lemma append_cancel_l (p x y : string) : p ++ x = p ++ y -> x = y.
Proof.
  induction p as [|c p IH]; intros E; [exact E|].
  cbn [append] in E. injection E as E. now apply IH.
Qed.

(** Two strings free of [sep], each followed by [sep] and more, agree only
    when both the parts before and the parts after [sep] agree. *)
Lemma append_separator_inj (sep : ascii) (a : string) :
  forall a' r r',
    all_chars (fun c => negb (Ascii.eqb c sep)) a = true ->
    all_chars (fun c => negb (Ascii.eqb c sep)) a' = true ->
    a ++ String sep r = a' ++ String sep r' -> a = a' /\ r = r'.
Proof.
  induction a as [|c a IH]; intros [|c' a'] r r' Ha Ha' E;
    cbn [append all_chars] in *.
  - injection E as E. auto.
  - injection E as <- _. rewrite Ascii.eqb_refl in Ha'. discriminate.
  - injection E as -> _. rewrite Ascii.eqb_refl in Ha. discriminate.
  - injection E as <- E.
    apply andb_true_iff in Ha. apply andb_true_iff in Ha'.
    destruct (IH a' r r' (proj2 Ha) (proj2 Ha') E) as [-> ->]. auto.
Qed.

Lemma encodeURIComponent_no_delimiter (s : string) (sep : ascii) :
  is_unreserved sep = false -> Ascii.eqb sep "%" = false ->
  all_chars (fun c => negb (Ascii.eqb c sep)) (encodeURIComponent s) = true.
Proof.
  intros U P. apply all_chars_impl with (2 := encodeURIComponent_chars s).
  intros c H. destruct (Ascii.eqb_spec c sep) as [->|]; [|reflexivity].
  rewrite U, P in H. discriminate.
Qed.

(** X7.  An encoded station code is made of unreserved characters and
    percent signs only, so whatever is typed, none of the characters that
    structure the URL (ampersand, equals sign, question mark, hash, slash,
    space) can appear in it. *)
Theorem encodeURIComponent_is_safe (s : string) :
  all_chars (fun c => is_unreserved c || Ascii.eqb c "%")
    (encodeURIComponent s) = true /\
  forall sep : ascii,
    In sep ["&"; "="; "?"; "#"; "/"; " "]%char ->
    all_chars (fun c => negb (Ascii.eqb c sep)) (encodeURIComponent s) = true.
Proof.
  split; [apply encodeURIComponent_chars|].
  intros sep H. apply encodeURIComponent_no_delimiter;
    cbn in H; repeat (destruct H as [<-|H]; [reflexivity|]); contradiction.
Qed.

Lemma encodeURIComponent_is_safe_witness :
  all_chars (fun c => negb (Ascii.eqb c "&"))
    (encodeURIComponent "A&destinationCode=B") = true.
Proof.
  exact (proj2 (encodeURIComponent_is_safe "A&destinationCode=B") "&"%char
           (or_introl eq_refl)).
Defined.

(** X8.  The search URL determines the two codes: searches that differ in
    the source or in the destination never share a URL, even when a code
    contains the text of the URL's own separators. *)
Theorem search_url_injective (s d s' d' : string) :
  s <> s' \/ d <> d' -> search_url s d <> search_url s' d'.
Proof.
  unfold search_url. intros Hne E.
  do 3 apply append_cancel_l in E.
  change ("&destinationCode=" ++ encodeURIComponent d)
    with (String "&" ("destinationCode=" ++ encodeURIComponent d)) in E.
  change ("&destinationCode=" ++ encodeURIComponent d')
    with (String "&" ("destinationCode=" ++ encodeURIComponent d')) in E.
  apply append_separator_inj in E;
    try (apply encodeURIComponent_no_delimiter; reflexivity).
  destruct E as [Es Ed]. apply append_cancel_l in Ed.
  apply encodeURIComponent_inj in Es. apply encodeURIComponent_inj in Ed.
  destruct Hne as [H|H]; contradiction.
Qed.

Lemma search_url_injective_witness :
  search_url "A&destinationCode=B" "C" <> search_url "A" "B&destinationCode=C".
Proof.
  apply (search_url_injective "A&destinationCode=B" "C" "A" "B&destinationCode=C").
  left. discriminate.
Defined.

Lemma upper_letter_facts (c : ascii) :
  is_upper_letter c = true ->
  is_letter c = true /\ upper_char c = c /\ is_space c = false /\
  is_unreserved c = true.
Proof.
  destruct c as [[] [] [] [] [] [] [] []]; intros H;
    try discriminate H; repeat split; reflexivity.
Qed.

Lemma letter_upper_char (c : ascii) :
  is_letter c = true -> is_upper_letter (upper_char c) = true.
Proof.
  destruct c as [[] [] [] [] [] [] [] []]; intros H;
    try discriminate H; reflexivity.
Qed.

Lemma letter_is_ascii (c : ascii) :
  is_letter c = true -> (nat_of_ascii c <? 128)%nat = true.
Proof.
  destruct c as [[] [] [] [] [] [] [] []]; intros H;
    try discriminate H; reflexivity.
Qed.

Lemma filter_gives_upper_letters (s : string) :
  all_chars is_upper_letter (toUpperCase (removeNonLetters s)) = true.
Proof.
  induction s as [|c r IH]; [reflexivity|].
  cbn [removeNonLetters]. destruct (is_letter c) eqn:L; [|exact IH].
  cbn [toUpperCase]. cbv zeta. rewrite (letter_is_ascii c L).
  cbn [all_chars]. now rewrite (letter_upper_char c L), IH.
Qed.

(** An upper-case letter starts no white space. *)
Lemma trimStart_upper_letter (c : ascii) (r : string) :
  is_upper_letter c = true -> trimStart (String c r) = String c r.
Proof.
  destruct c as [[] [] [] [] [] [] [] []]; intros H; try discriminate H;
    destruct r as [|c2 [|c3 r3]]; reflexivity.
Qed.

Lemma trimEnd_upper_letters (v : string) :
  all_chars is_upper_letter v = true -> trimEnd v = v.
Proof.
  induction v as [|c r IH]; intros H; [reflexivity|].
  cbn [all_chars] in H. apply andb_true_iff in H. destruct H as [Hc Hr].
  cbn [trimEnd]. rewrite (trimStart_upper_letter c r Hc). cbn [isEmpty].
  now rewrite (IH Hr).
Qed.

(** A string of upper-case letters passes unchanged through the filter,
    through the handler's trimming and upper-casing, and through the URL
    encoding. *)
Lemma upper_letters_fixed (v : string) :
  all_chars is_upper_letter v = true ->
  toUpperCase (removeNonLetters v) = v /\
  toUpperCase (trim v) = v /\
  encodeURIComponent v = v.
Proof.
  intros H.
  assert (R : removeNonLetters v = v).
  { induction v as [|c r IH]; [reflexivity|].
    cbn [all_chars] in H. apply andb_true_iff in H. destruct H as [Hc Hr].
    destruct (upper_letter_facts c Hc) as (L & _).
    cbn [removeNonLetters]. now rewrite L, (IH Hr). }
  assert (U : toUpperCase v = v).
  { clear R. induction v as [|c r IH]; [reflexivity|].
    cbn [all_chars] in H. apply andb_true_iff in H. destruct H as [Hc Hr].
    destruct (upper_letter_facts c Hc) as (L & F & _).
    cbn [toUpperCase]. cbv zeta.
    now rewrite (letter_is_ascii c L), F, (IH Hr). }
  assert (T : trim v = v).
  { unfold trim.
    assert (TS : trimStart v = v).
    { destruct v as [|c r]; [reflexivity|].
      cbn [all_chars] in H. apply andb_true_iff in H.
      now apply trimStart_upper_letter. }
    rewrite TS. now apply trimEnd_upper_letters. }
  assert (E : encodeURIComponent v = v).
  { clear R U T. induction v as [|c r IH]; [reflexivity|].
    cbn [all_chars] in H. apply andb_true_iff in H. destruct H as [Hc Hr].
    destruct (upper_letter_facts c Hc) as (_ & _ & _ & Un).
    cbn [encodeURIComponent]. now rewrite Un, (IH Hr). }
  rewrite R, T. auto.
Qed.

(** X9.  Whatever is in a station field, the input filter leaves only
    upper-case ASCII letters in it and touches nothing else on the page;
    a field that already holds upper-case letters only is left as it is,
    so filtering twice is filtering once. *)
Theorem input_filter_upper_letters (w : World) :
  let ws := exec sourceCode_input w in
  let wd := exec destinationCode_input w in
  all_chars is_upper_letter (sourceCodeValue ws) = true /\
  all_chars is_upper_letter (destinationCodeValue wd) = true /\
  ws = set_sourceCodeValue (sourceCodeValue ws) w /\
  wd = set_destinationCodeValue (destinationCodeValue wd) w /\
  exec sourceCode_input ws = ws /\
  exec destinationCode_input wd = wd /\
  (all_chars is_upper_letter (sourceCodeValue w) = true ->
   sourceCodeValue ws = sourceCodeValue w) /\
  (all_chars is_upper_letter (destinationCodeValue w) = true ->
   destinationCodeValue wd = destinationCodeValue w).
Proof.
  cbv zeta. unfold exec, sourceCode_input, destinationCode_input, update.
  cbn [snd sourceCodeValue destinationCodeValue set_sourceCodeValue
       set_destinationCodeValue].
  pose proof (filter_gives_upper_letters (sourceCodeValue w)) as Fs.
  pose proof (filter_gives_upper_letters (destinationCodeValue w)) as Fd.
  split; [exact Fs|]. split; [exact Fd|].
  split; [reflexivity|]. split; [reflexivity|].
  split; [now rewrite (proj1 (upper_letters_fixed _ Fs))|].
  split; [now rewrite (proj1 (upper_letters_fixed _ Fd))|].
  split; intros H; exact (proj1 (upper_letters_fixed _ H)).
Qed.

Lemma input_filter_upper_letters_witness :
  sourceCodeValue (exec sourceCode_input (Samples.typed "NDLS" "hwh")) = "NDLS".
Proof.
  exact (proj1 (proj2 (proj2 (proj2 (proj2 (proj2 (proj2
           (input_filter_upper_letters (Samples.typed "NDLS" "hwh"))))))))
           eq_refl).
Defined.

Example input_filter_sample :
  sourceCodeValue (exec sourceCode_input (Samples.typed " nd-l5s é" "")) = "NDLS".
Proof. reflexivity. Qed.

(** How the submit handler branches, on the page after [preventDefault]. *)
Lemma searchForm_submit_run (server : string -> fetch_outcome) (w : World) :
  searchForm_submit server w =
  (let sourceCode := toUpperCase (trim (sourceCodeValue w)) in
   let destinationCode := toUpperCase (trim (destinationCodeValue w)) in
   if isEmpty sourceCode || isEmpty destinationCode
   then showError "Please enter both source and destination station codes."
   else if String.eqb sourceCode destinationCode
   then showError "Source and destination stations cannot be the same."
   else searchTrains server sourceCode destinationCode)
    (record PreventDefault w).
Proof. reflexivity. Qed.

Lemma isEmpty_false (s : string) : s <> EmptyString -> isEmpty s = false.
Proof. destruct s; [contradiction|reflexivity]. Qed.

Lemma searchTrains_requests (server : string -> fetch_outcome)
    (s d : string) (w : World) :
  requests (trace (exec (searchTrains server s d) w)) =
  (requests (trace w) ++ [search_url s d])%list.
Proof.
  unfold exec.
  destruct (searchTrains_paths server s d w) as (_ & _ & post & T & _ & _ & P).
  rewrite T, dispatched_trace, !requests_app, P. cbn. now rewrite app_nil_r.
Qed.

(** X10.  Once the two input filters have run, a submit sends the two
    fields to the server exactly as they stand: when they are non-empty
    and differ, the one request issued is for the base URL followed by
    "?sourceCode=", the first field, "&destinationCode=" and the second
    field; when one is empty or they are equal, no request is issued. *)
Theorem filtered_codes_reach_server
    (server : string -> fetch_outcome) (w : World) :
  let w1 := exec destinationCode_input (exec sourceCode_input w) in
  let s := sourceCodeValue w1 in
  let d := destinationCodeValue w1 in
  let w2 := exec (searchForm_submit server) w1 in
  s = toUpperCase (removeNonLetters (sourceCodeValue w)) /\
  d = toUpperCase (removeNonLetters (destinationCodeValue w)) /\
  (s <> EmptyString -> d <> EmptyString -> s <> d ->
   requests (trace w2) =
   (requests (trace w) ++
    [("http://localhost:8080/search/by-code?sourceCode=" ++ s ++
      "&destinationCode=" ++ d)%string])%list) /\
  (s = EmptyString \/ d = EmptyString \/ s = d ->
   requests (trace w2) = requests (trace w)).
Proof.
  cbv zeta.
  set (w1 := exec destinationCode_input (exec sourceCode_input w)).
  assert (Es : sourceCodeValue w1 =
               toUpperCase (removeNonLetters (sourceCodeValue w)))
    by reflexivity.
  assert (Ed : destinationCodeValue w1 =
               toUpperCase (removeNonLetters (destinationCodeValue w)))
    by reflexivity.
  assert (Et : trace w1 = trace w) by reflexivity.
  clearbody w1.
  split; [exact Es|]. split; [exact Ed|].
  pose proof (filter_gives_upper_letters (sourceCodeValue w)) as Fs.
  pose proof (filter_gives_upper_letters (destinationCodeValue w)) as Fd.
  rewrite <- Es in Fs. rewrite <- Ed in Fd.
  destruct (upper_letters_fixed _ Fs) as (_ & Ts & Us).
  destruct (upper_letters_fixed _ Fd) as (_ & Td & Ud).
  unfold exec. rewrite searchForm_submit_run. cbv zeta.
  rewrite Ts, Td.
  split.
  - intros Hs Hd Hne.
    rewrite (isEmpty_false _ Hs), (isEmpty_false _ Hd). cbn [orb].
    destruct (String.eqb_spec (sourceCodeValue w1) (destinationCodeValue w1));
      [contradiction|].
    change (snd (searchTrains server (sourceCodeValue w1)
                   (destinationCodeValue w1) (record PreventDefault w1)))
      with (exec (searchTrains server (sourceCodeValue w1)
                    (destinationCodeValue w1)) (record PreventDefault w1)).
    rewrite searchTrains_requests. unfold search_url. rewrite Us, Ud.
    cbn [trace record]. rewrite requests_app, Et. cbn [requests].
    now rewrite app_nil_r.
  - intros Hbad.
    assert (Q : forall text,
              requests (trace (snd (showError text (record PreventDefault w1)))) =
              requests (trace w)).
    { intros text. cbn. rewrite <- !app_assoc, requests_app, Et. cbn.
      now rewrite app_nil_r. }
    destruct (isEmpty (sourceCodeValue w1) || isEmpty (destinationCodeValue w1))
      eqn:E; [apply Q|].
    destruct (String.eqb_spec (sourceCodeValue w1) (destinationCodeValue w1));
      [apply Q|].
    exfalso. apply orb_false_iff in E. destruct E as [E1 E2].
    destruct Hbad as [K|[K|K]]; [| |contradiction];
      rewrite K in *; discriminate.
Qed.

Lemma filtered_codes_reach_server_witness :
  let w := Samples.typed "nd ls" "hwh1" in
  let w1 := exec destinationCode_input (exec sourceCode_input w) in
  requests (trace (exec (searchForm_submit Samples.empty_server) w1)) =
  ["http://localhost:8080/search/by-code?sourceCode=NDLS&destinationCode=HWH"].
Proof.
  apply (proj1 (proj2 (proj2 (filtered_codes_reach_server Samples.empty_server
                                (Samples.typed "nd ls" "hwh1")))));
    discriminate.
Defined.

(** X11.  A submit that fails validation changes the error panel and
    nothing else that is on display: the cards, the route summary, the
    results container, the loading indicator and the pending callbacks are
    as they were, so results of an earlier search stay where they are. *)
Theorem rejected_submit_keeps_results
    (server : string -> fetch_outcome) (w : World) :
  let sourceCode := toUpperCase (trim (sourceCodeValue w)) in
  let destinationCode := toUpperCase (trim (destinationCodeValue w)) in
  let w' := exec (searchForm_submit server) w in
  sourceCode = EmptyString \/ destinationCode = EmptyString \/
  sourceCode = destinationCode ->
  trainsList w' = trainsList w /\
  routeInfoHTML w' = routeInfoHTML w /\
  resultsContainerDisplay w' = resultsContainerDisplay w /\
  loadingDisplay w' = loadingDisplay w /\
  timers w' = timers w /\
  sourceCodeValue w' = sourceCodeValue w /\
  destinationCodeValue w' = destinationCodeValue w /\
  trace w' = (trace w ++ [PreventDefault; StyleDisplay errorMessage "block";
                          ScrollIntoView errorMessage "center"])%list.
Proof.
  cbv zeta. intros Hbad. unfold exec. rewrite searchForm_submit_run. cbv zeta.
  assert (Q : forall text,
            let v := snd (showError text (record PreventDefault w)) in
            trainsList v = trainsList w /\
            routeInfoHTML v = routeInfoHTML w /\
            resultsContainerDisplay v = resultsContainerDisplay w /\
            loadingDisplay v = loadingDisplay w /\
            timers v = timers w /\
            sourceCodeValue v = sourceCodeValue w /\
            destinationCodeValue v = destinationCodeValue w /\
            trace v = (trace w ++ [PreventDefault;
                                   StyleDisplay errorMessage "block";
                                   ScrollIntoView errorMessage "center"])%list).
  { intros text. cbn. rewrite <- !app_assoc. repeat split; reflexivity. }
  destruct (isEmpty _ || isEmpty _) eqn:E; [apply Q|].
  destruct (String.eqb_spec (toUpperCase (trim (sourceCodeValue w)))
              (toUpperCase (trim (destinationCodeValue w)))); [apply Q|].
  exfalso. apply orb_false_iff in E. destruct E as [E1 E2].
  destruct Hbad as [K|[K|K]]; [| |contradiction];
    rewrite K in *; discriminate.
Qed.

Lemma rejected_submit_keeps_results_witness :
  trainsList (exec (searchForm_submit Samples.empty_server)
                (Samples.typed "hwh" " HWH ")) = [].
Proof.
  exact (proj1 (rejected_submit_keeps_results Samples.empty_server
                  (Samples.typed "hwh" " HWH ")
                  (or_intror (or_intror eq_refl)))).
Defined.

(** X12.  The Escape key dismisses a validation error: after a rejected
    submit and Escape the error panel is hidden, its text is still the
    validation message, and everything else on display is as it was
    before the submit; no request is issued on the way.  Any other key
    leaves the page exactly as it is. *)
Theorem escape_dismisses_error
    (server : string -> fetch_outcome) (w : World) :
  let sourceCode := toUpperCase (trim (sourceCodeValue w)) in
  let destinationCode := toUpperCase (trim (destinationCodeValue w)) in
  let w1 := exec (searchForm_submit server) w in
  let w2 := exec (document_keydown "Escape") w1 in
  (sourceCode = EmptyString \/ destinationCode = EmptyString \/
   sourceCode = destinationCode ->
   errorMessageDisplay w1 = "block" /\
   errorMessageDisplay w2 = "none" /\
   errorTextContent w2 = errorTextContent w1 /\
   trainsList w2 = trainsList w /\
   routeInfoHTML w2 = routeInfoHTML w /\
   resultsContainerDisplay w2 = resultsContainerDisplay w /\
   loadingDisplay w2 = loadingDisplay w /\
   requests (trace w2) = requests (trace w)) /\
  (forall key : string, key <> "Escape" -> document_keydown key w = (Normal tt, w)).
Proof.
  cbv zeta. split.
  - intros Hbad. unfold exec. rewrite searchForm_submit_run. cbv zeta.
    assert (Q : forall text,
              let v1 := snd (showError text (record PreventDefault w)) in
              let v2 := snd (document_keydown "Escape" v1) in
              errorMessageDisplay v1 = "block" /\
              errorMessageDisplay v2 = "none" /\
              errorTextContent v2 = errorTextContent v1 /\
              trainsList v2 = trainsList w /\
              routeInfoHTML v2 = routeInfoHTML w /\
              resultsContainerDisplay v2 = resultsContainerDisplay w /\
              loadingDisplay v2 = loadingDisplay w /\
              requests (trace v2) = requests (trace w)).
    { intros text. cbn. rewrite <- !app_assoc, requests_app. cbn.
      rewrite app_nil_r. repeat split; reflexivity. }
    destruct (isEmpty _ || isEmpty _) eqn:E; [apply Q|].
    destruct (String.eqb_spec (toUpperCase (trim (sourceCodeValue w)))
                (toUpperCase (trim (destinationCodeValue w)))); [apply Q|].
    exfalso. apply orb_false_iff in E. destruct E as [E1 E2].
    destruct Hbad as [K|[K|K]]; [| |contradiction];
      rewrite K in *; discriminate.
  - intros key Hkey. unfold document_keydown.
    destruct (String.eqb_spec key "Escape"); [contradiction|reflexivity].
Qed.

Lemma escape_dismisses_error_witness :
  errorMessageDisplay
    (exec (searchForm_submit Samples.empty_server) (Samples.typed "" "HWH")) =
  "block" /\
  document_keydown "Enter" Samples.blank = (Normal tt, Samples.blank).
Proof.
  split.
  - exact (proj1 (proj1 (escape_dismisses_error Samples.empty_server
                           (Samples.typed "" "HWH")) (or_introl eq_refl))).
  - apply (proj2 (escape_dismisses_error Samples.empty_server Samples.blank)).
    discriminate.
Defined.

(** ** More about the search *)

(** A failed settlement sends the search to its catch block. *)
Lemma searchTrains_when_failed (server : string -> fetch_outcome)
    (s d : string) (w : World) :
  failed (server (search_url s d)) = true ->
  exists e : Error,
    searchTrains server s d w = searchTrains_catch e (dispatched s d w) /\
    match server (search_url s d) with
    | Rejected e' => e = e'
    | Responded r => if ok r then body r = inl e else e = http_error r
    end.
Proof.
  intros F. destruct (server (search_url s d)) as [e|r] eqn:H.
  - exists e. split; [now apply searchTrains_rejected|reflexivity].
  - destruct (ok r) eqn:K.
    + cbn in F. rewrite K in F. cbn in F.
      destruct (body r) as [e|data] eqn:B; [|discriminate].
      exists e. split; [now apply searchTrains_bad_body with (r := r)|].
      reflexivity.
    + exists (http_error r). split; [now apply searchTrains_not_ok|reflexivity].
Qed.

(** Any other settlement carries data, which is rendered. *)
Lemma searchTrains_when_succeeded (server : string -> fetch_outcome)
    (s d : string) (w : World) :
  failed (server (search_url s d)) = false ->
  exists (r : Response) (data : option (list TripResult)),
    server (search_url s d) = Responded r /\ ok r = true /\
    body r = inr data /\
    ((no_data data = true /\
      searchTrains server s d w =
      showNoResults s d (exec hideLoading (dispatched s d w))) \/
     (exists t rest, data = Some (t :: rest) /\
      searchTrains server s d w =
      displayResults (t :: rest) s d (exec hideLoading (dispatched s d w)))).
Proof.
  intros F. destruct (server (search_url s d)) as [e|r] eqn:H; [discriminate|].
  cbn in F. apply orb_false_iff in F. destruct F as [K B].
  apply negb_false_iff in K.
  destruct (body r) as [e|data] eqn:E; [discriminate|].
  exists r, data. repeat (split; [reflexivity || assumption|]).
  destruct (no_data data) eqn:N.
  - left. split; [reflexivity|].
    now apply searchTrains_no_data with (r := r) (data := data).
  - right. destruct data as [[|t rest]|]; try discriminate.
    exists t, rest. split; [reflexivity|].
    now apply searchTrains_trips with (r := r).
Qed.

Lemma run_tasks_frame (l : list (task * Z)) :
  forall index w,
    let v := snd (forEach (fun t (_ : nat) => run_task (fst t)) l index w) in
    errorMessageDisplay v = errorMessageDisplay w /\
    errorTextContent v = errorTextContent w /\
    loadingDisplay v = loadingDisplay w /\
    timers v = timers w.
Proof.
  induction l as [|[t delay] r IH]; intros index w; [cbn; auto|].
  destruct t. cbv zeta.
  change (forEach (fun t (_ : nat) => run_task (fst t))
            ((RevealResults, delay) :: r) index w)
    with (forEach (fun t (_ : nat) => run_task (fst t)) r (S index)
            (record (ScrollIntoView resultsContainer "start")
               (record (StyleDisplay resultsContainer "block")
                  (set_display resultsContainer "block" w)))).
  match goal with
  | |- context [forEach _ r _ ?w1] =>
      destruct (IH (S index) w1) as (A & B & C & D)
  end.
  rewrite A, B, C, D. auto.
Qed.

(** X13.  Every run of the search, however it ends, issues exactly one
    request, for the URL built from its two arguments. *)
Theorem searchTrains_one_request (server : string -> fetch_outcome)
    (s d : string) (w : World) :
  requests (trace (exec (searchTrains server s d) w)) =
  (requests (trace w) ++ [search_url s d])%list.
Proof. apply searchTrains_requests. Qed.

(** X14.  On a page with no callback pending, the settlement of the
    request decides the state a run of the search leaves.  After a
    rejection, a status that is not ok or an unreadable body: the error
    panel displayed, the results container hidden, the cards and the route
    summary untouched, no callback queued.  After an ok response without
    data: the error panel hidden, the results container displayed with the
    "no trains found" panel, no callback queued.  After an ok response with
    trips: the error panel hidden, the results container hidden, the cards
    of the trips in the list and exactly one callback queued to reveal
    them.  In each case the error panel and the results container are not
    both displayed when the run ends. *)
Theorem searchTrains_one_panel (server : string -> fetch_outcome)
    (s d : string) (w : World) :
  timers w = [] ->
  let w' := exec (searchTrains server s d) w in
  (failed (server (search_url s d)) = true ->
   errorMessageDisplay w' = "block" /\
   resultsContainerDisplay w' = "none" /\
   trainsList w' = trainsList w /\
   routeInfoHTML w' = routeInfoHTML w /\
   timers w' = []) /\
  (forall (r : Response) (data : option (list TripResult)),
     server (search_url s d) = Responded r -> ok r = true ->
     body r = inr data ->
     (no_data data = true ->
      errorMessageDisplay w' = "none" /\
      errorTextContent w' = errorTextContent w /\
      resultsContainerDisplay w' = "block" /\
      trainsList w' = [Markup (no_results_markup s d)] /\
      timers w' = []) /\
     (forall trains, data = Some trains -> trains <> [] ->
      errorMessageDisplay w' = "none" /\
      errorTextContent w' = errorTextContent w /\
      resultsContainerDisplay w' = "none" /\
      trainsList w' = cards trains 0 /\
      timers w' = [(RevealResults, 100)])) /\
  ~ (errorMessageDisplay w' = "block" /\ resultsContainerDisplay w' = "block").
Proof.
  intros P. cbv zeta. unfold exec. split; [|split].
  - intros F. destruct (searchTrains_when_failed server s d w F) as (e & -> & _).
    rewrite searchTrains_catch_run. cbn. rewrite P. repeat split; reflexivity.
  - intros r data H K B. split.
    + intros N. rewrite (searchTrains_no_data server s d w r data H K B N).
      cbn. rewrite P. repeat split; reflexivity.
    + intros [|t rest] -> Hne; [contradiction|].
      rewrite (searchTrains_trips server s d w r t rest H K B).
      rewrite displayResults_run. cbn. rewrite P. repeat split; reflexivity.
  - destruct (failed (server (search_url s d))) eqn:F.
    + destruct (searchTrains_when_failed server s d w F) as (e & -> & _).
      rewrite searchTrains_catch_run. cbn. intros [_ Q]. discriminate.
    + destruct (searchTrains_when_succeeded server s d w F)
        as (r & data & _ & _ & _ & [[_ ->]|(t & rest & _ & ->)]).
      * cbn. intros [Q _]. discriminate.
      * rewrite displayResults_run. cbn. intros [Q _]. discriminate.
Qed.

Lemma searchTrains_one_panel_witness :
  let w' := exec (searchTrains Samples.missing_server "NDLS" "HWH")
              Samples.blank in
  errorMessageDisplay w' = "block" /\
  resultsContainerDisplay w' = "none" /\
  trainsList w' = trainsList Samples.blank /\
  routeInfoHTML w' = routeInfoHTML Samples.blank /\
  timers w' = [].
Proof.
  exact (proj1 (searchTrains_one_panel Samples.missing_server "NDLS" "HWH"
                  Samples.blank eq_refl) eq_refl).
Defined.

(** X15.  A successful response whose body is JSON null is treated like an
    empty sequence: the search completes without throwing and shows the
    "no trains found" panel at once, with no card and no pending reveal. *)
Theorem searchTrains_null_body (server : string -> fetch_outcome)
    (s d : string) (w : World) (response : Response) :
  server (search_url s d) = Responded response ->
  ok response = true ->
  body response = inr None ->
  let r := searchTrains server s d w in
  fst r = Normal tt /\
  trainsList (snd r) = [Markup (no_results_markup s d)] /\
  resultsContainerDisplay (snd r) = "block" /\
  errorMessageDisplay (snd r) = "none" /\
  loadingDisplay (snd r) = "none" /\
  timers (snd r) = timers w.
Proof.
  intros H K B. cbv zeta.
  rewrite (searchTrains_no_data server s d w response None H K B eq_refl).
  repeat split; reflexivity.
Qed.

Lemma searchTrains_null_body_witness :
  trainsList (exec (searchTrains MoreSamples.null_server "NDLS" "HWH")
                Samples.blank) =
  [Markup (no_results_markup "NDLS" "HWH")].
Proof.
  exact (proj1 (proj2 (searchTrains_null_body MoreSamples.null_server
                         "NDLS" "HWH" Samples.blank _
                         eq_refl eq_refl eq_refl))).
Defined.

(** X16.  A successful response with at least one trip: the search
    completes, the list of trains holds the card of each trip in order, the
    route summary is written from the first trip alone, the error panel and
    the loading indicator are hidden, and the results container stays
    hidden until the queued callback fires, which displays it with the
    cards in place. *)
Theorem searchTrains_trips_rendered (server : string -> fetch_outcome)
    (s d : string) (w : World) (response : Response)
    (t : TripResult) (rest : list TripResult) :
  server (search_url s d) = Responded response ->
  ok response = true ->
  body response = inr (Some (t :: rest)) ->
  let r := searchTrains server s d w in
  let shown := exec run_timers (snd r) in
  fst r = Normal tt /\
  (forall k, nth_error (trainsList (snd r)) k =
             option_map (fun x => Card (createTrainCard x k))
               (nth_error (t :: rest) k)) /\
  routeInfoHTML (snd r) = route_markup t /\
  errorMessageDisplay (snd r) = "none" /\
  loadingDisplay (snd r) = "none" /\
  resultsContainerDisplay (snd r) = "none" /\
  timers (snd r) = (timers w ++ [(RevealResults, 100)])%list /\
  resultsContainerDisplay shown = "block" /\
  trainsList shown = trainsList (snd r) /\
  timers shown = [].
Proof.
  intros H K B. cbv zeta.
  rewrite (searchTrains_trips server s d w response t rest H K B).
  rewrite displayResults_run. cbn [fst snd].
  split; [reflexivity|].
  split; [intros k; exact (cards_nth_error (t :: rest) 0 k)|].
  repeat (split; [reflexivity|]).
  unfold exec, run_timers.
  match goal with
  | |- context [forEach ?f ?l ?i ?w0] =>
      destruct (run_tasks_effect l i w0) as (_ & T & _ & D);
      destruct (run_tasks_frame l i w0) as (_ & _ & _ & Q)
  end.
  rewrite T, D, Q. cbn. destruct (timers w); auto.
Qed.

Lemma searchTrains_trips_rendered_witness :
  let r := searchTrains MoreSamples.trips_server "NDLS" "HWH" Samples.blank in
  routeInfoHTML (snd r) = route_markup Samples.rajdhani /\
  resultsContainerDisplay (exec run_timers (snd r)) = "block".
Proof.
  pose proof (searchTrains_trips_rendered MoreSamples.trips_server
                "NDLS" "HWH" Samples.blank _ Samples.rajdhani [Samples.duronto]
                eq_refl eq_refl eq_refl) as P.
  cbv zeta in P. split; [apply P|]. apply P.
Defined.

(** X17.  A response that is ok but whose body cannot be read ends in the
    error state, with the results hidden and the cards untouched.  The
    text shown is "Search failed: " and the rejection's message, both when
    the rejection is not a TypeError and when it is a TypeError whose
    message does not contain "fetch"; only for a TypeError whose message
    contains "fetch" is the connectivity message shown, although the
    server did answer. *)
Theorem searchTrains_unreadable_body (server : string -> fetch_outcome)
    (s d : string) (w : World) (response : Response) (e : Error) :
  server (search_url s d) = Responded response ->
  ok response = true ->
  body response = inl e ->
  let r := searchTrains server s d w in
  fst r = Normal tt /\
  errorMessageDisplay (snd r) = "block" /\
  resultsContainerDisplay (snd r) = "none" /\
  loadingDisplay (snd r) = "none" /\
  trainsList (snd r) = trainsList w /\
  (name e <> "TypeError" ->
   errorTextContent (snd r) = "Search failed: " ++ message e) /\
  (name e = "TypeError" -> includes (message e) "fetch" = false ->
   errorTextContent (snd r) = "Search failed: " ++ message e) /\
  (name e = "TypeError" -> includes (message e) "fetch" = true ->
   errorTextContent (snd r) = connectivity_message).
Proof.
  intros H K B. cbv zeta.
  rewrite (searchTrains_bad_body server s d w response e H K B).
  rewrite searchTrains_catch_run. cbn [fst snd].
  repeat (split; [reflexivity|]).
  cbn [errorTextContent record set_display set_errorTextContent].
  split; [|split].
  - intros N. apply String.eqb_neq in N. now rewrite N.
  - intros N I. now rewrite N, I.
  - intros N I. now rewrite N, I.
Qed.

Lemma searchTrains_unreadable_body_witness :
  errorTextContent
    (exec (searchTrains MoreSamples.broken_body_server "NDLS" "HWH")
       Samples.blank) =
  "Search failed: Unexpected token < in JSON at position 0" /\
  errorTextContent
    (exec (searchTrains MoreSamples.dropped_body_server "NDLS" "HWH")
       Samples.blank) =
  "Search failed: network error" /\
  errorTextContent
    (exec (searchTrains MoreSamples.aborted_body_server "NDLS" "HWH")
       Samples.blank) =
  connectivity_message.
Proof.
  split; [|split].
  - apply (proj1 (proj2 (proj2 (proj2 (proj2 (proj2
             (searchTrains_unreadable_body MoreSamples.broken_body_server
                "NDLS" "HWH" Samples.blank _ _ eq_refl eq_refl eq_refl))))))).
    discriminate.
  - apply (proj1 (proj2 (proj2 (proj2 (proj2 (proj2 (proj2
             (searchTrains_unreadable_body MoreSamples.dropped_body_server
                "NDLS" "HWH" Samples.blank _ _ eq_refl eq_refl eq_refl))))))));
      reflexivity.
  - apply (proj2 (proj2 (proj2 (proj2 (proj2 (proj2 (proj2
             (searchTrains_unreadable_body MoreSamples.aborted_body_server
                "NDLS" "HWH" Samples.blank _ _ eq_refl eq_refl eq_refl))))))));
      reflexivity.
Defined.

(** X18.  The search never cancels a pending callback.  When a callback of
    an earlier rendering is still pending and the new search fails, the
    callback fires all the same: afterwards the results container with the
    earlier cards is displayed next to the error panel. *)
Theorem pending_reveal_survives_failure (server : string -> fetch_outcome)
    (s d : string) (w : World) :
  timers w <> [] ->
  failed (server (search_url s d)) = true ->
  let w' := exec (searchTrains server s d) w in
  let fired := exec run_timers w' in
  timers w' = timers w /\
  errorMessageDisplay w' = "block" /\
  resultsContainerDisplay w' = "none" /\
  errorMessageDisplay fired = "block" /\
  resultsContainerDisplay fired = "block" /\
  trainsList fired = trainsList w.
Proof.
  intros P F. cbv zeta. unfold exec at 1 2 3 5 7 9.
  destruct (searchTrains_when_failed server s d w F) as (e & -> & _).
  rewrite searchTrains_catch_run. cbn [snd].
  repeat (split; [reflexivity|]).
  unfold exec, run_timers.
  match goal with
  | |- context [forEach ?f ?l ?i ?w0] =>
      destruct (run_tasks_effect l i w0) as (_ & T & _ & D);
      destruct (run_tasks_frame l i w0) as (E & _)
  end.
  rewrite T, D, E. cbn. destruct (timers w); [contradiction|auto].
Qed.

Lemma pending_reveal_survives_failure_witness :
  let fired :=
    exec run_timers
      (exec (searchTrains Samples.missing_server "NDLS" "HWH")
         MoreSamples.pending_reveal) in
  errorMessageDisplay fired = "block" /\
  resultsContainerDisplay fired = "block".
Proof.
  pose proof (pending_reveal_survives_failure Samples.missing_server
                "NDLS" "HWH" MoreSamples.pending_reveal
                ltac:(discriminate) eq_refl) as P.
  cbv zeta in P. split; apply P.
Defined.
